(** * qr_plots: structural decoding of a QR module grid

    A shallow embedding of [qrplots/qrplots.py] (class [QRPlots], everything
    but the plotting methods) and the verification of its region colouring,
    mask reversal and configuration-field readers.

    Python integers are [Z]; Python lists are Rocq lists read and written
    through [getitem], [setitem], [getslice] and [setslice], which follow the
    Python rules for negative indices and for slice bounds; exceptions are an
    error monad.  Every method works on a [copy.deepcopy] of the grid it is
    given and the rows of a grid are separate lists, so an assignment to one
    cell changes no other cell and no other grid: grids are plain values. *)

From Stdlib Require Import Ascii String.
From stdpp Require Import base numbers list list_numbers strings pretty gmap.

Local Open Scope Z_scope.

(** ** Exceptions and the error monad *)

(** The exceptions of the program: the built-in ones it can raise, and
    whatever the external encoder raises. *)
Inductive exn : Set :=
  | IndexError
  | KeyError
  | ValueError
  | AssertionError
  | EncoderError.

Inductive result (A : Type) : Type :=
  | Ok (a : A)
  | Raise (e : exn).
Arguments Ok {A} a.
Arguments Raise {A} e.

Definition bind {A B} (m : result A) (f : A → result B) : result B :=
  match m with
  | Ok a => f a
  | Raise e => Raise e
  end.

Notation "x <- m ;; k" := (bind m (λ x, k))
  (at level 100, m at next level, right associativity,
   format "'[v' x  <-  m  ;; '/' k ']'").

(** ** Python lists *)

Module Py.

(** [len(l)] *)
Definition len {A} (l : list A) : Z := Z.of_nat (length l).

(** Position denoted by the index [i] in a sequence of length [n]:
    [0 <= i < n] counts from the front, [-n <= i < 0] from the back,
    anything else is out of range. *)
Definition index (n i : Z) : option Z :=
  if decide (0 ≤ i < n) then Some i
  else if decide (- n ≤ i < 0) then Some (n + i)
  else None.

(** [l[i]] *)
Definition getitem {A} (l : list A) (i : Z) : result A :=
  match index (len l) i with
  | Some k =>
      match l !! Z.to_nat k with
      | Some x => Ok x
      | None => Raise IndexError
      end
  | None => Raise IndexError
  end.

(** [l[i] = x] *)
Definition setitem {A} (l : list A) (i : Z) (x : A) : result (list A) :=
  match index (len l) i with
  | Some k => Ok (<[Z.to_nat k := x]> l)
  | None => Raise IndexError
  end.

(** A slice bound, clamped as [slice.indices] does for step 1: an absent
    bound takes its default, a negative one counts from the back and
    stops at 0, a positive one stops at the length. *)
Definition bound (n : Z) (b : option Z) (dflt : Z) : Z :=
  match b with
  | None => dflt
  | Some k => if decide (k < 0) then Z.max (k + n) 0 else Z.min k n
  end.

(** [l[lo:hi]] *)
Definition getslice {A} (l : list A) (lo hi : option Z) : list A :=
  let a := bound (len l) lo 0 in
  let b := bound (len l) hi (len l) in
  take (Z.to_nat (b - a)) (drop (Z.to_nat a) l).

(** [l[lo:hi] = vs]: the slice is replaced by [vs] whatever its length;;
    an empty slice ([hi] before [lo]) inserts at [lo]. *)
Definition setslice {A} (l : list A) (lo hi : option Z) (vs : list A) : list A :=
  let a := bound (len l) lo 0 in
  let b := bound (len l) hi (len l) in
  take (Z.to_nat a) l ++ vs ++ drop (Z.to_nat (Z.max a b)) l.

(** [range(lo, hi)] *)
Definition range (lo hi : Z) : list Z := seqZ lo (hi - lo).

(** [for x in xs: s = body(x, s)], stopping at the first exception. *)
Fixpoint for_each {S} (xs : list Z) (body : Z → S → result S) (s : S) : result S :=
  match xs with
  | [] => Ok s
  | x :: xs' => s' <- body x s;; for_each xs' body s'
  end.

(** [[x] * k] *)
Definition repeat {A} (x : A) (k : Z) : list A := replicate (Z.to_nat k) x.

(** [str(n)] for an integer. *)
Definition str (n : Z) : string := pretty n.

(** ["".join(parts)] *)
Definition join (parts : list string) : string := String.concat "" parts.

Definition bin_digit (c : ascii) : option Z :=
  if decide (c = "0"%char) then Some 0
  else if decide (c = "1"%char) then Some 1
  else None.

Fixpoint bin_digits (acc : Z) (s : string) : option Z :=
  match s with
  | EmptyString => Some acc
  | String c s' =>
      match bin_digit c with
      | Some d => bin_digits (2 * acc + d) s'
      | None => None
      end
  end.

Definition bin_nonempty (s : string) : result Z :=
  match s with
  | EmptyString => Raise ValueError
  | _ => match bin_digits 0 s with
         | Some n => Ok n
         | None => Raise ValueError
         end
  end.

(** [int(s, 2)] on the strings this program builds, which are joined
    decimal renderings of integers: an optional sign followed by at least
    one binary digit, most significant first; anything else is a
    [ValueError].  (Blanks, underscores and the [0b] prefix, which [int]
    also accepts, cannot occur in such strings and are not modelled.) *)
Definition int2 (s : string) : result Z :=
  match s with
  | String "-"%char s' => n <- bin_nonempty s';; Ok (- n)
  | String "+"%char s' => bin_nonempty s'
  | _ => bin_nonempty s
  end.

End Py.

(** ** The class [QRPlots] *)

Module QRPlots.
Import Py.

Definition C_BACK : Z := 0.
Definition C_FRONT : Z := 1.
Definition C_FIX_BACK : Z := 2.
Definition C_FIX_FRONT : Z := 3.
Definition C_MASK : Z := 4.

(** A module matrix: a list of rows of colour codes. *)
Abbreviation grid := (list (list Z)).

(** The dictionary of the eight mask predicates over (row, column). *)
Definition MASKS : gmap Z (Z → Z → bool) :=
  list_to_map
    [ (0, λ i j, bool_decide ((i * j) mod 2 + (i * j) mod 3 = 0));
      (1, λ i j, bool_decide ((i / 2 + j / 3) mod 2 = 0));
      (2, λ i j, bool_decide (((i * j) mod 3 + i + j) mod 2 = 0));
      (3, λ i j, bool_decide (((i * j) mod 3 + i * j) mod 2 = 0));
      (4, λ i j, bool_decide (i mod 2 = 0));
      (5, λ i j, bool_decide ((i + j) mod 2 = 0));
      (6, λ i j, bool_decide ((i + j) mod 3 = 0));
      (7, λ i j, bool_decide (j mod 3 = 0)) ].

(** [MASKS[mask_id]] *)
Definition masks_getitem (mask_id : Z) : result (Z → Z → bool) :=
  match MASKS !! mask_id with
  | Some mask_fun => Ok mask_fun
  | None => Raise KeyError
  end.

(** [data[i][j]] *)
Definition cell (data : grid) (i j : Z) : result Z :=
  row <- getitem data i;; getitem row j.

(** [data[i][lo:hi]] *)
Definition row_slice (data : grid) (i : Z) (lo hi : option Z) : result (list Z) :=
  row <- getitem data i;; Ok (getslice row lo hi).

(** [data[i][j] = v] *)
Definition assign_cell (data : grid) (i j v : Z) : result grid :=
  row <- getitem data i;;
  row' <- setitem row j v;;
  setitem data i row'.

(** [data[i][lo:hi] = vs] *)
Definition assign_row_slice (data : grid) (i : Z) (lo hi : option Z)
    (vs : list Z) : result grid :=
  row <- getitem data i;;
  setitem data i (setslice row lo hi vs).

(** [C_FIX_FRONT if val == C_FRONT else C_FIX_BACK] *)
Definition fix_color (val : Z) : Z :=
  if decide (val = C_FRONT) then C_FIX_FRONT else C_FIX_BACK.

Definition _color_fixed_pixels (self_data : grid) (data : option grid) : result grid :=
  let data := default self_data data in
  data <- for_each (range 0 8) (λ i data,
    vals <- row_slice data i None (Some 8);;
    data <- assign_row_slice data i None (Some 8) (fix_color <$> vals);;
    vals <- row_slice data i (Some (-8)) None;;
    data <- assign_row_slice data i (Some (-8)) None (fix_color <$> vals);;
    vals <- row_slice data (-8 + i) None (Some 8);;
    assign_row_slice data (-8 + i) None (Some 8) (fix_color <$> vals)) data;;
  vals <- row_slice data 6 (Some 8) (Some (-8));;
  data <- assign_row_slice data 6 (Some 8) (Some (-8)) (fix_color <$> vals);;
  data <- for_each (range 8 (len data - 8)) (λ i data,
    val <- cell data i 6;;
    assign_cell data i 6 (fix_color val)) data;;
  assign_cell data (-8) 8 C_FIX_FRONT.

Definition _color_cfg_pixels (self_data : grid) (data : option grid)
    (hide_rb : bool) : result grid :=
  let data := default self_data data in
  data <- for_each (range 0 9) (λ i data,
    data <- assign_row_slice data i None (Some 9) (repeat C_FIX_BACK 9);;
    data <- assign_row_slice data i (Some (-8)) None (repeat C_FIX_BACK 8);;
    if decide (i < 8)
    then assign_row_slice data (-8 + i) None (Some 8) (repeat C_FIX_BACK 8)
    else Ok data) data;;
  data <- assign_row_slice data 6 (Some 8) (Some (-8))
           (repeat C_FIX_BACK (len data - 16));;
  data <- for_each (range 9 (len data - 8)) (λ i data,
    assign_cell data i 6 C_FIX_BACK) data;;
  data <- for_each (range 0 8) (λ i data,
    assign_cell data (-8 + i) 8 C_FIX_BACK) data;;
  if hide_rb
  then for_each (range 0 6) (λ i data,
    assign_row_slice data (-6 + i) (Some (-2)) None (repeat C_FIX_BACK 2)) data
  else Ok data.

Definition mask_id (self_data : grid) : result Z :=
  vals <- row_slice self_data 8 (Some 2) (Some 5);;
  int2 (join ((λ val, if decide (val = C_FRONT) then "1" else "0") <$> vals)).

(** [mask_id = self.mask_id() if mask_id is None else mask_id] *)
Definition mask_id_or_default (self_data : grid) (mask_id_arg : option Z) : result Z :=
  match mask_id_arg with
  | None => mask_id self_data
  | Some m => Ok m
  end.

Definition _color_mask (self_data : grid) (show_data : bool)
    (mask_id : option Z) : result grid :=
  mask_id <- mask_id_or_default self_data mask_id;;
  data <- _color_cfg_pixels self_data None false;;
  mask_fun <- masks_getitem mask_id;;
  for_each (range 0 (len data)) (λ i data,
    row0 <- getitem data 0;;
    for_each (range 0 (len row0)) (λ j data,
      val <- cell data i j;;
      if decide (val = C_FIX_BACK) then Ok data
      else if mask_fun i j then assign_cell data i j C_MASK
      else if negb show_data then assign_cell data i j C_BACK
      else Ok data) data) data.

(** [C_BACK if val == C_FRONT else C_FRONT] *)
Definition flip_color (val : Z) : Z :=
  if decide (val = C_FRONT) then C_BACK else C_FRONT.

Definition _reverse_mask (self_data : grid) (mask_id : option Z) : result grid :=
  mask_id <- mask_id_or_default self_data mask_id;;
  let data := self_data in
  mask <- _color_mask self_data false (Some mask_id);;
  for_each (range 0 (len mask)) (λ i data,
    row0 <- getitem mask 0;;
    for_each (range 0 (len row0)) (λ j data,
      m <- cell mask i j;;
      if decide (m = C_MASK)
      then val <- cell data i j;; assign_cell data i j (flip_color val)
      else Ok data) data) data.

(** The string [len_bin] of [msg_len], before it is reversed. *)
Definition msg_len_bin (self_data_rev : grid) : result string :=
  for_each (range 0 4) (λ i (len_bin : string),
    vals <- row_slice self_data_rev (-6 + i) (Some (-2)) None;;
    Ok (len_bin +:+ join (str <$> vals))) "".

Definition msg_len (self_data_rev : grid) : result Z :=
  len_bin <- msg_len_bin self_data_rev;;
  int2 (String.rev len_bin).

(** The string [cod_mode] of [codification_mode], before it is reversed. *)
Definition codification_mode_bin (self_data_rev : grid) : result string :=
  vals <- row_slice self_data_rev (-2) (Some (-2)) None;;
  let cod_mode := join (str <$> vals) in
  vals <- row_slice self_data_rev (-1) (Some (-2)) None;;
  Ok (cod_mode +:+ join (str <$> vals)).

Definition codification_mode (self_data_rev : grid) : result Z :=
  cod_mode <- codification_mode_bin self_data_rev;;
  int2 (String.rev cod_mode).

(** [[[C_FRONT if val else C_BACK for val in row] for row in qr_data]],
    which is what the appending loop of [__init__] builds. *)
Definition colors_of_matrix (qr_data : list (list bool)) : grid :=
  (λ row : list bool, (λ val : bool, if val then C_FRONT else C_BACK) <$> row)
    <$> qr_data.

(** The attributes of an instance once [__init__] has returned. *)
Record instance : Type := {
  data : grid;
  data_rev : grid;
  text : string;
}.

Section Constructor.
(** The external encoder: [qrcode.QRCode(version=1, error_correction=...,
    box_size=10, border=0)], [add_data], [make(fit=True)] and
    [get_matrix()], which gives a matrix of booleans or raises. *)
Variable qrcode_get_matrix : string → Z → result (list (list bool)).

Definition __init__ (qr_text : string) (error_correction : Z) : result instance :=
  qr_data <- qrcode_get_matrix qr_text error_correction;;
  let d := colors_of_matrix qr_data in
  rev <- _reverse_mask d None;;
  let self := {| data := d; data_rev := rev; text := qr_text |} in
  mode <- codification_mode (data_rev self);;
  if decide (mode = 4) then Ok self else Raise AssertionError.
End Constructor.

(** *** The plotting methods

    Of each plotting method the model keeps what it hands to matplotlib: the
    colours of its [ListedColormap] and the matrix given to [matshow].  The
    figure, the rectangles of [plot_cfg_info], the grid lines of
    [plot_reversed] and [plt.show()] are drawing and are left out. *)

Definition PLT_COLORS : list string :=
  ["white"; "black"; "#bdc3c7"; "#2c3e50"; "#4cd137"; "magenta"; "yellow"].

Record drawing : Type := {
  colors : list string;
  matrix : grid;
}.

Definition plot (self : instance) : result drawing :=
  let cmap := getslice PLT_COLORS None (Some 2) in
  Ok {| colors := cmap; matrix := data self |}.

Definition plot_cfg_info (self : instance) : result drawing :=
  shown <- _color_fixed_pixels (data self) None;;
  let cmap := getslice PLT_COLORS None (Some 4) in
  Ok {| colors := cmap; matrix := shown |}.

Definition plot_fixed (self : instance) : result drawing :=
  shown <- _color_cfg_pixels (data self) None false;;
  let cmap := getslice PLT_COLORS None (Some 3) in
  Ok {| colors := cmap; matrix := shown |}.

Definition plot_mask (self : instance) (show_data : bool)
    (mask_id : option Z) : result drawing :=
  shown <- _color_mask (data self) show_data mask_id;;
  let cmap := getslice PLT_COLORS None (Some 5) in
  Ok {| colors := cmap; matrix := shown |}.

Definition plot_reversed (self : instance) : result drawing :=
  let cmap := getslice PLT_COLORS None (Some 3) in
  shown <- _color_cfg_pixels (data self) (Some (data_rev self)) false;;
  Ok {| colors := cmap; matrix := shown |}.

End QRPlots.

Import Py QRPlots.

(** * Vocabulary of the verification *)

(** ** Grids *)

(** An [N]×[N] grid. *)
Definition square (N : Z) (g : grid) : Prop :=
  len g = N ∧ Forall (λ row, len row = N) g.

Global Instance square_dec N g : Decision (square N g).
Proof. unfold square. apply _. Defined.

(** The cell at row [r] and column [c], both counted from 0. *)
Definition peek (g : grid) (r c : Z) : Z :=
  (g !!! Z.to_nat r) !!! Z.to_nat c.

(** Every cell of [g'] is the cell of [g] at the same place, changed by [F]. *)
Definition pointwise (N : Z) (F : Z → Z → Z → Z) (g g' : grid) : Prop :=
  square N g' ∧
  ∀ r c, 0 ≤ r < N → 0 ≤ c < N → peek g' r c = F r c (peek g r c).

(** A data grid: every cell is [C_BACK] or [C_FRONT]. *)
Definition binary (g : grid) : Prop :=
  Forall (Forall (λ v, v = C_BACK ∨ v = C_FRONT)) g.

Global Instance binary_dec g : Decision (binary g).
Proof. unfold binary. apply _. Defined.

(** ** Regions of the symbol *)

(** The finder blocks and the two timing strips. *)
Definition fixed_footprint (N r c : Z) : bool :=
  bool_decide
    ((0 ≤ r ≤ 7 ∧ 0 ≤ c ≤ 7)
     ∨ (0 ≤ r ≤ 7 ∧ N - 8 ≤ c ≤ N - 1)
     ∨ (N - 8 ≤ r ≤ N - 1 ∧ 0 ≤ c ≤ 7)
     ∨ (r = 6 ∧ 8 ≤ c ≤ N - 9)
     ∨ (c = 6 ∧ 8 ≤ r ≤ N - 9)).

(** The dark module. *)
Definition dark_module (N r c : Z) : bool :=
  bool_decide (r = N - 8 ∧ c = 8).

(** The three finder blocks with the format bands next to them. *)
Definition finder_format_bands (N r c : Z) : Prop :=
  (0 ≤ r ≤ 8 ∧ 0 ≤ c ≤ 8)
  ∨ (0 ≤ r ≤ 8 ∧ N - 8 ≤ c ≤ N - 1)
  ∨ (N - 8 ≤ r ≤ N - 1 ∧ 0 ≤ c ≤ 7).

(** Row 6 and column 6 between the finder blocks. *)
Definition timing_strips (N r c : Z) : Prop :=
  (r = 6 ∧ 8 ≤ c ≤ N - 9) ∨ (c = 6 ∧ 8 ≤ r ≤ N - 9).

(** Column 8 from the dark module down to the bottom edge. *)
Definition dark_module_column (N r c : Z) : Prop :=
  c = 8 ∧ N - 8 ≤ r ≤ N - 1.

(** The last two columns of the bottom six rows. *)
Definition length_mode_area (N r c : Z) : Prop :=
  N - 6 ≤ r ≤ N - 1 ∧ N - 2 ≤ c ≤ N - 1.

(** The cells that hold structure or format information. *)
Definition format_footprint (N r c : Z) : bool :=
  bool_decide
    (finder_format_bands N r c ∨ timing_strips N r c
     ∨ dark_module_column N r c).

(** The cells [_color_cfg_pixels] blanks: the format footprint and, when
    [hide_rb] is set, the length and mode cells too. *)
Definition cfg_footprint (N : Z) (hide_rb : bool) (r c : Z) : bool :=
  format_footprint N r c
  || hide_rb && bool_decide (length_mode_area N r c).

(** ** The effect of the mask on one cell *)

(** What [_color_mask] does to a cell of the blanked grid. *)
Definition mask_overlay (mask_fun : Z → Z → bool) (show_data : bool)
    (r c y : Z) : Z :=
  if decide (y = C_FIX_BACK) then y
  else if mask_fun r c then C_MASK
  else if negb show_data then C_BACK
  else y.

(** ** The configuration fields in the words of the specification *)

(** The fields as the specification words them: cells read as bits
    (DataFront is 1, DataBack is 0), put in a list in reading order, the
    list reversed where the specification says so, and the result taken as
    a binary numeral with the most significant bit first. *)

Definition bit_of_color (v : Z) : Z :=
  if decide (v = C_FRONT) then 1 else 0.

Definition big_endian (bits : list Z) : Z :=
  foldl (λ acc b, 2 * acc + b) 0 bits.

(** The two trailing cells of row [r], left to right. *)
Definition trailing_pair (N : Z) (g : grid) (r : Z) : list Z :=
  [peek g r (N - 2); peek g r (N - 1)].

Definition msg_len_cells (N : Z) (g : grid) : list Z :=
  trailing_pair N g (N - 6) ++ trailing_pair N g (N - 5)
  ++ trailing_pair N g (N - 4) ++ trailing_pair N g (N - 3).

Definition msg_len_as_specified (N : Z) (g : grid) : Z :=
  big_endian (reverse (bit_of_color <$> msg_len_cells N g)).

Definition codification_mode_cells (N : Z) (g : grid) : list Z :=
  trailing_pair N g (N - 2) ++ trailing_pair N g (N - 1).

Definition codification_mode_as_specified (N : Z) (g : grid) : Z :=
  big_endian (reverse (bit_of_color <$> codification_mode_cells N g)).

Definition mask_id_as_specified (g : grid) : Z :=
  big_endian (bit_of_color <$> [peek g 8 2; peek g 8 3; peek g 8 4]).

(** A string of the characters 0 and 1 only. *)
Fixpoint bit_string (s : string) : bool :=
  match s with
  | EmptyString => true
  | String c s' =>
      (bool_decide (c = "0"%char) || bool_decide (c = "1"%char)) && bit_string s'
  end.

(** ** Sample grids *)

(** An [N]×[N] grid of light data modules. *)
Definition blank (N : Z) : grid := repeat (repeat C_BACK N) N.

(** A 21×21 grid, light but for the cell at row 20, column 19. *)
Definition byte_mode_grid : grid :=
  <[20%nat := <[19%nat := C_FRONT]> (repeat C_BACK 21)]> (blank 21).

(** The same two grids as an encoder would deliver them. *)
Definition blank_matrix : list (list bool) :=
  replicate 21 (replicate 21 false).
Definition byte_mode_matrix : list (list bool) :=
  <[20%nat := <[19%nat := true]> (replicate 21 false)]> blank_matrix.

(** An encoder that delivers the matrix [m] whatever it is asked. *)
Definition fixed_encoder (m : list (list bool)) :
    string → Z → result (list (list bool)) :=
  λ _ _, Ok m.

(** The fixed-pixel colouring as the specification states it, the dark
    module being recoloured like the rest of the footprint: DataFront to
    FixedFront, DataBack to FixedBack. *)
Definition fixed_pixels_as_specified (N : Z) (g g' : grid) : Prop :=
  ∀ r c, 0 ≤ r < N → 0 ≤ c < N →
    peek g' r c =
      if fixed_footprint N r c || dark_module N r c
      then (if decide (peek g r c = C_FRONT) then C_FIX_FRONT else C_FIX_BACK)
      else peek g r c.

(** ** Vocabulary of the further properties *)

(** ['1' if val == C_FRONT else '0'], the digit [mask_id] writes for a
    cell. *)
Definition digit_of_color (val : Z) : string :=
  if decide (val = C_FRONT) then "1" else "0".

(** A plotting method returns a drawing whose matrix is [N]×[N] and whose
    codes are all below the number of colours of its colour map. *)
Definition codes_have_colors (N : Z) (method : result drawing) : Prop :=
  ∃ d, method = Ok d ∧ square N (matrix d) ∧
    ∀ r c, 0 ≤ r < N → 0 ≤ c < N → 0 ≤ peek (matrix d) r c < len (colors d).

(** A 21×21 grid, light but for the dark corner cell at row 0, column 0. *)
Definition finder_grid : grid :=
  <[0%nat := <[0%nat := C_FRONT]> (repeat C_BACK 21)]> (blank 21).

(** A 5×5 matrix, too small for any method. *)
Definition short_matrix : list (list bool) :=
  replicate 5 (replicate 5 false).

(** An encoder that raises whatever it is asked. *)
Definition failing_encoder : string → Z → result (list (list bool)) :=
  λ _ _, Raise EncoderError.

(** The instance [__init__] builds from [byte_mode_matrix]. *)
Definition byte_mode_instance : instance :=
  {| data := byte_mode_grid;
     data_rev :=
       match _reverse_mask byte_mode_grid None with
       | Ok rev => rev
       | Raise _ => []
       end;
     text := "hey there" |}.

(** * Verification *)

(** ** Sample runs *)

Example getitem_from_the_back : getitem [10; 20; 30] (-1) = Ok 30.
Proof. reflexivity. Qed.

Example getitem_out_of_range : getitem [10; 20; 30] 3 = Raise IndexError.
Proof. reflexivity. Qed.

Example getslice_last_two : getslice [1; 2; 3; 4; 5] (Some (-2)) None = [4; 5].
Proof. reflexivity. Qed.

Example setslice_changes_length :
  setslice [1; 2; 3; 4; 5] (Some 1) (Some (-1)) [9] = [1; 9; 5].
Proof. reflexivity. Qed.

Example int2_of_bits : int2 "0100" = Ok 4.
Proof. reflexivity. Qed.

Example int2_of_other_digits : int2 "0120" = Raise ValueError.
Proof. reflexivity. Qed.

Example mask_id_of_blank : mask_id (blank 21) = Ok 0.
Proof. vm_compute. reflexivity. Qed.

Example codification_mode_of_byte_mode_grid :
  (rev <- _reverse_mask byte_mode_grid None;; codification_mode rev) = Ok 4.
Proof. vm_compute. reflexivity. Qed.

Example color_cfg_pixels_of_small_grid :
  _color_cfg_pixels (blank 5) None false = Raise IndexError.
Proof. vm_compute. reflexivity. Qed.

(** ** Reasoning about the error monad and loops *)

Lemma bind_Ok_inv {A B} (m : result A) (f : A → result B) b :
  bind m f = Ok b → ∃ a, m = Ok a ∧ f a = Ok b.
Proof. destruct m; simpl; [eauto | done]. Qed.

Lemma range_nil lo hi : hi ≤ lo → range lo hi = [].
Proof. intros. unfold range. apply seqZ_nil. lia. Qed.

Lemma range_cons lo hi : lo < hi → range lo hi = lo :: range (lo + 1) hi.
Proof.
  intros. unfold range. rewrite seqZ_cons by lia.
  f_equal. f_equal; lia.
Qed.

(** The loop rule: an invariant indexed by the loop counter, established
    before the loop and carried by every iteration, holds at the upper
    bound when the loop ends, and the loop raises nothing. *)
Lemma for_each_range {S} (I : Z → S → Prop) lo hi body (s : S) :
  lo ≤ hi →
  I lo s →
  (∀ k t, lo ≤ k < hi → I k t → ∃ t', body k t = Ok t' ∧ I (k + 1) t') →
  ∃ s', for_each (range lo hi) body s = Ok s' ∧ I hi s'.
Proof.
  intros Hle. remember (Z.to_nat (hi - lo)) as n eqn:Hn.
  revert lo s Hle Hn. induction n as [|n IH]; intros lo s Hle Hn Hlo Hstep.
  - assert (lo = hi) as -> by lia. rewrite range_nil by lia. eauto.
  - rewrite range_cons by lia. simpl.
    destruct (Hstep lo s) as (t & -> & Ht); [lia | done |]. simpl.
    apply IH; [lia | lia | done |].
    intros k u ? ?. apply Hstep; [lia | done].
Qed.

(** ** Indices and slices *)

Lemma index_front n i : 0 ≤ i < n → index n i = Some i.
Proof. intros. unfold index. by rewrite decide_True. Qed.

Lemma index_back n i : - n ≤ i < 0 → index n i = Some (n + i).
Proof.
  intros. unfold index. rewrite decide_False by lia. by rewrite decide_True.
Qed.

Lemma index_Some n i k : index n i = Some k → 0 ≤ k < n.
Proof. unfold index. repeat case_decide; intros; simplify_eq; lia. Qed.

Lemma getitem_lookup {A} (l : list A) i k :
  index (len l) i = Some k →
  ∃ x, getitem l i = Ok x ∧ l !! Z.to_nat k = Some x.
Proof.
  intros Hi. unfold getitem. rewrite Hi.
  apply index_Some in Hi. unfold len in Hi.
  destruct (lookup_lt_is_Some_2 l (Z.to_nat k)) as [x Hx]; [lia |].
  rewrite Hx. eauto.
Qed.

(** ** Square grids and their cells *)

Section Square.
Context (N : Z) (g : grid) (Hsq : square N g).

Lemma square_row i r :
  index N i = Some r →
  ∃ row, getitem g i = Ok row ∧ g !! Z.to_nat r = Some row ∧ len row = N.
Proof using Hsq.
  intros Hi. destruct Hsq as [Hlen Hrows]. rewrite <-Hlen in Hi.
  destruct (getitem_lookup g i r Hi) as (row & Hget & Hrow).
  exists row. split_and!; [done.. |].
  by apply (Forall_lookup_1 _ _ _ _ Hrows Hrow).
Qed.

Lemma square_cell i j r c :
  index N i = Some r → index N j = Some c →
  cell g i j = Ok (peek g r c).
Proof using Hsq.
  intros Hi Hj. destruct (square_row i r Hi) as (row & Hget & Hrow & Hlen).
  unfold cell. rewrite Hget. simpl. rewrite <-Hlen in Hj.
  destruct (getitem_lookup row j c Hj) as (x & -> & Hx).
  unfold peek. by rewrite (list_lookup_total_correct _ _ _ Hrow),
    (list_lookup_total_correct _ _ _ Hx).
Qed.

Lemma square_setitem i r row' :
  index N i = Some r → len row' = N →
  ∃ g', setitem g i row' = Ok g' ∧ square N g' ∧ g' = <[Z.to_nat r := row']> g.
Proof using Hsq.
  intros Hi Hlen'. destruct Hsq as [Hlen Hrows].
  unfold setitem. rewrite Hlen, Hi. eexists. split_and!; [done | | done].
  split.
  - unfold len. rewrite length_insert. done.
  - by apply Forall_insert.
Qed.

Lemma peek_insert_row r row' r' c' :
  0 ≤ r < N → 0 ≤ r' →
  peek (<[Z.to_nat r := row']> g) r' c' =
    if decide (r' = r) then row' !!! Z.to_nat c' else peek g r' c'.
Proof using Hsq.
  intros Hr Hr'. destruct Hsq as [Hlen _]. unfold len in Hlen. unfold peek.
  case_decide as Heq.
  - subst r'. rewrite list_lookup_total_insert_eq by lia. done.
  - rewrite list_lookup_total_insert_ne by lia. done.
Qed.
End Square.

(** ** Slices of a row *)

Section Slices.
Context (N : Z) (l : list Z) (Hlen : len l = N).
Context (lo hi : option Z) (a b : Z).
Context (Ha : bound N lo 0 = a) (Hb : bound N hi N = b).
Context (Hab : 0 ≤ a ≤ b ∧ b ≤ N).

Lemma getslice_len : len (getslice l lo hi) = b - a.
Proof using Hlen Ha Hb Hab.
  unfold getslice. rewrite Hlen, Ha, Hb. unfold len in *.
  rewrite length_take, length_drop. lia.
Qed.

Lemma getslice_lookup k :
  0 ≤ k < b - a → getslice l lo hi !!! Z.to_nat k = l !!! Z.to_nat (a + k).
Proof using Hlen Ha Hb Hab.
  intros Hk. unfold getslice. rewrite Hlen, Ha, Hb.
  rewrite lookup_total_take_lt by lia. rewrite lookup_total_drop.
  f_equal. lia.
Qed.

Lemma setslice_len vs : len vs = b - a → len (setslice l lo hi vs) = N.
Proof using Hlen Ha Hb Hab.
  intros Hvs. unfold setslice. rewrite Hlen, Ha, Hb. unfold len in *.
  rewrite !length_app, length_take, length_drop. lia.
Qed.

Lemma setslice_lookup vs c :
  len vs = b - a → 0 ≤ c < N →
  setslice l lo hi vs !!! Z.to_nat c =
    if decide (a ≤ c < b) then vs !!! Z.to_nat (c - a) else l !!! Z.to_nat c.
Proof using Hlen Ha Hb Hab.
  intros Hvs Hc. unfold setslice. rewrite Hlen, Ha, Hb. unfold len in *.
  replace (Z.max a b) with b by lia.
  assert (length (take (Z.to_nat a) l) = Z.to_nat a) as Htake
    by (rewrite length_take; lia).
  destruct (decide (c < a)) as [Hlt | Hge].
  - rewrite decide_False by lia.
    rewrite lookup_total_app_l by lia.
    by rewrite lookup_total_take_lt by lia.
  - rewrite lookup_total_app_r by lia. rewrite Htake.
    case_decide as Hin.
    + rewrite lookup_total_app_l by lia. f_equal. lia.
    + rewrite lookup_total_app_r by lia. rewrite lookup_total_drop.
      f_equal. lia.
Qed.
End Slices.

(** ** The assignments of the program, cell by cell *)

Lemma pointwise_refl N g : square N g → pointwise N (λ _ _ x, x) g g.
Proof. by split. Qed.

Lemma pointwise_trans N F1 F2 g g1 g2 :
  pointwise N F1 g g1 → pointwise N F2 g1 g2 →
  pointwise N (λ r c x, F2 r c (F1 r c x)) g g2.
Proof.
  intros [_ H1] [Hsq H2]. split; [done |].
  intros r c Hr Hc. by rewrite H2, H1.
Qed.

Lemma pointwise_ext N F F' g g' :
  pointwise N F g g' →
  (∀ r c x, 0 ≤ r < N → 0 ≤ c < N → F r c x = F' r c x) →
  pointwise N F' g g'.
Proof.
  intros [Hsq H] Hext. split; [done |].
  intros r c Hr Hc. rewrite H by done. by apply Hext.
Qed.

Section Assignments.
Context (N : Z) (g : grid) (Hsq : square N g).

(** [data[i][lo:hi] = vs] with as many values as the slice has cells. *)
Lemma assign_row_slice_spec i r lo hi a b vs :
  index N i = Some r →
  bound N lo 0 = a → bound N hi N = b → 0 ≤ a ≤ b ∧ b ≤ N →
  len vs = b - a →
  ∃ g', assign_row_slice g i lo hi vs = Ok g' ∧ square N g' ∧
    ∀ r' c', 0 ≤ r' < N → 0 ≤ c' < N →
      peek g' r' c' =
        if decide (r' = r ∧ a ≤ c' < b) then vs !!! Z.to_nat (c' - a)
        else peek g r' c'.
Proof using Hsq.
  intros Hi Ha Hb Hab Hvs.
  destruct (square_row N g Hsq i r Hi) as (row & Hget & Hrow & Hlen).
  unfold assign_row_slice. rewrite Hget. simpl.
  destruct (square_setitem N g Hsq i r (setslice row lo hi vs) Hi)
    as (g' & -> & Hsq' & ->).
  { by eapply setslice_len. }
  eexists. split_and!; [done.. |].
  intros r' c' Hr' Hc'. apply index_Some in Hi as Hr.
  rewrite (peek_insert_row N g Hsq) by lia.
  destruct (decide (r' = r)) as [-> | Hne].
  - rewrite (setslice_lookup N row Hlen lo hi a b) by done.
    unfold peek. rewrite (list_lookup_total_correct _ _ _ Hrow).
    repeat case_decide; first [done | lia].
  - rewrite decide_False by lia. done.
Qed.

(** [data[i][lo:hi] = [f(val) for val in data[i][lo:hi]]] *)
Lemma recolor_row_slice i r lo hi a b (f : Z → Z) :
  index N i = Some r →
  bound N lo 0 = a → bound N hi N = b → 0 ≤ a ≤ b ∧ b ≤ N →
  ∃ vals g',
    row_slice g i lo hi = Ok vals ∧
    assign_row_slice g i lo hi (f <$> vals) = Ok g' ∧
    pointwise N (λ r' c' x, if decide (r' = r ∧ a ≤ c' < b) then f x else x) g g'.
Proof using Hsq.
  intros Hi Ha Hb Hab.
  destruct (square_row N g Hsq i r Hi) as (row & Hget & Hrow & Hlen).
  unfold row_slice. rewrite Hget. simpl.
  pose proof (getslice_len N row Hlen lo hi a b Ha Hb Hab) as Hslice.
  destruct (assign_row_slice_spec i r lo hi a b (f <$> getslice row lo hi))
    as (g' & Hg' & Hsq' & Hpeek); [done.. | |].
  { unfold len in *. by rewrite length_fmap. }
  eexists _, g'. split; [done |]. split; [done |]. split; [done |].
  intros r' c' Hr' Hc'. rewrite Hpeek by done.
  case_decide as Hin; [| done]. destruct Hin as [-> Hin].
  rewrite (list_lookup_total_fmap f (getslice row lo hi))
    by (unfold len in *; lia).
  rewrite (getslice_lookup N row Hlen lo hi a b) by first [done | lia].
  unfold peek. rewrite (list_lookup_total_correct _ _ _ Hrow).
  do 2 f_equal. lia.
Qed.

(** [data[i][lo:hi] = [v] * k] where the slice has [k] cells. *)
Lemma fill_row_slice i r lo hi a b v k :
  index N i = Some r →
  bound N lo 0 = a → bound N hi N = b → 0 ≤ a ≤ b ∧ b ≤ N →
  k = b - a →
  ∃ g', assign_row_slice g i lo hi (repeat v k) = Ok g' ∧
    pointwise N (λ r' c' x, if decide (r' = r ∧ a ≤ c' < b) then v else x) g g'.
Proof using Hsq.
  intros Hi Ha Hb Hab ->.
  destruct (assign_row_slice_spec i r lo hi a b (repeat v (b - a)))
    as (g' & -> & Hsq' & Hpeek); [done.. | |].
  { unfold len, repeat. rewrite length_replicate. lia. }
  eexists. split; [done |]. split; [done |].
  intros r' c' Hr' Hc'. rewrite Hpeek by done.
  case_decide as Hin; [| done]. unfold repeat.
  by rewrite lookup_total_replicate_2 by lia.
Qed.

(** [data[i][j] = v] *)
Lemma assign_cell_spec i j r c v :
  index N i = Some r → index N j = Some c →
  ∃ g', assign_cell g i j v = Ok g' ∧
    pointwise N (λ r' c' x, if decide (r' = r ∧ c' = c) then v else x) g g'.
Proof using Hsq.
  intros Hi Hj.
  destruct (square_row N g Hsq i r Hi) as (row & Hget & Hrow & Hlen).
  unfold assign_cell. rewrite Hget. simpl.
  unfold setitem at 1. rewrite Hlen, Hj. simpl.
  apply index_Some in Hi as Hr. apply index_Some in Hj as Hc.
  destruct (square_setitem N g Hsq i r (<[Z.to_nat c := v]> row) Hi)
    as (g' & -> & Hsq' & ->).
  { unfold len in *. by rewrite length_insert. }
  eexists. split; [done |]. split; [done |].
  intros r' c' Hr' Hc'. rewrite (peek_insert_row N g Hsq) by lia.
  destruct (decide (r' = r)) as [-> | Hne].
  - unfold peek. rewrite (list_lookup_total_correct _ _ _ Hrow).
    case_decide as Hin.
    + destruct Hin as [_ ->].
      rewrite list_lookup_total_insert_eq by (unfold len in *; lia). done.
    + rewrite list_lookup_total_insert_ne by lia. done.
  - rewrite decide_False by lia. done.
Qed.

(** [data[i][j] = h(data[i][j])] *)
Lemma update_cell_spec i j r c (h : Z → Z) :
  index N i = Some r → index N j = Some c →
  ∃ g', cell g i j = Ok (peek g r c) ∧
    assign_cell g i j (h (peek g r c)) = Ok g' ∧
    pointwise N (λ r' c' x, if decide (r' = r ∧ c' = c) then h x else x) g g'.
Proof using Hsq.
  intros Hi Hj.
  destruct (assign_cell_spec i j r c (h (peek g r c)) Hi Hj)
    as (g' & Hg' & Hsq' & Hpeek).
  exists g'. split; [by apply (square_cell N) |]. split; [done |]. split; [done |].
  intros r' c' Hr' Hc'. rewrite Hpeek by done.
  case_decide as Hin; [| done]. by destruct Hin as [-> ->].
Qed.
End Assignments.

(** Resolution of the index and slice-bound side conditions. *)
Ltac solve_index :=
  first [ apply index_front; lia | apply index_back; lia ].
Ltac solve_bound :=
  unfold bound; repeat case_decide; lia.
(** Comparison of two cell-wise descriptions built from decidable regions. *)
Ltac solve_regions :=
  intros; cbv beta; repeat case_bool_decide; cbn [orb andb negb];
  repeat case_decide;
  first [done | lia | exfalso; lia | by destruct_and?; simplify_eq].

(** ** Fixed-pixel colouring *)

Lemma color_fixed_pixels_pointwise N self_data data :
  21 ≤ N → square N (default self_data data) →
  ∃ g', _color_fixed_pixels self_data data = Ok g' ∧
    pointwise N
      (λ r c x, if dark_module N r c then C_FIX_FRONT
                else if fixed_footprint N r c then fix_color x else x)
      (default self_data data) g'.
Proof.
  intros HN Hsq. unfold _color_fixed_pixels.
  set (g := default self_data data) in *.
  (* the three finder blocks, one row of each per iteration *)
  destruct (for_each_range
    (λ k d, pointwise N
       (λ r c x,
          if decide ((0 ≤ r < k ∧ (c < 8 ∨ N - 8 ≤ c))
                     ∨ (N - 8 ≤ r < N - 8 + k ∧ c < 8))
          then fix_color x else x) g d)
    0 8
    (λ i data,
      vals <- row_slice data i None (Some 8);;
      data <- assign_row_slice data i None (Some 8) (fix_color <$> vals);;
      vals <- row_slice data i (Some (-8)) None;;
      data <- assign_row_slice data i (Some (-8)) None (fix_color <$> vals);;
      vals <- row_slice data (-8 + i) None (Some 8);;
      assign_row_slice data (-8 + i) None (Some 8) (fix_color <$> vals)) g)
    as (d1 & -> & Hd1); [lia | | |].
  { eapply pointwise_ext; [by apply pointwise_refl |]. solve_regions. }
  { intros k d Hk Hd.
    destruct (recolor_row_slice N d (proj1 Hd) k k None (Some 8) 0 8 fix_color)
      as (v1 & e1 & -> & He1 & Hp1); [solve_index | solve_bound.. | lia |].
    cbn [bind]. rewrite He1. cbn [bind].
    destruct (recolor_row_slice N e1 (proj1 Hp1) k k (Some (-8)) None (N - 8) N
                fix_color)
      as (v2 & e2 & -> & He2 & Hp2); [solve_index | solve_bound.. | lia |].
    cbn [bind]. rewrite He2. cbn [bind].
    destruct (recolor_row_slice N e2 (proj1 Hp2) (-8 + k) (N + (-8 + k))
                None (Some 8) 0 8 fix_color)
      as (v3 & e3 & -> & He3 & Hp3); [solve_index | solve_bound.. | lia |].
    cbn [bind]. rewrite He3. eexists. split; [done |].
    pose proof (pointwise_trans _ _ _ _ _ _
      (pointwise_trans _ _ _ _ _ _ (pointwise_trans _ _ _ _ _ _ Hd Hp1) Hp2) Hp3)
      as Hall.
    eapply pointwise_ext; [exact Hall |]. solve_regions. }
  cbn [bind].
  (* the horizontal timing strip *)
  destruct (recolor_row_slice N d1 (proj1 Hd1) 6 6 (Some 8) (Some (-8)) 8 (N - 8)
              fix_color)
    as (v & d2 & -> & He2 & Hd2); [solve_index | solve_bound.. | lia |].
  cbn [bind]. rewrite He2. cbn [bind].
  (* the vertical timing strip *)
  replace (len d2) with N by (symmetry; apply Hd2).
  destruct (for_each_range
    (λ k d, pointwise N
       (λ r c x, if decide (8 ≤ r < k ∧ c = 6) then fix_color x else x) d2 d)
    8 (N - 8)
    (λ i data, val <- cell data i 6;; assign_cell data i 6 (fix_color val)) d2)
    as (d3 & -> & Hd3); [lia | | |].
  { eapply pointwise_ext; [apply pointwise_refl, Hd2 |]. solve_regions. }
  { intros k d Hk Hd.
    destruct (update_cell_spec N d (proj1 Hd) k 6 k 6 fix_color)
      as (e & -> & He & Hp); [solve_index.. |].
    cbn [bind]. rewrite He. eexists. split; [done |].
    eapply pointwise_ext; [exact (pointwise_trans _ _ _ _ _ _ Hd Hp) |].
    solve_regions. }
  cbn [bind].
  (* the dark module *)
  destruct (assign_cell_spec N d3 (proj1 Hd3) (-8) 8 (N + -8) 8 C_FIX_FRONT)
    as (d4 & -> & Hd4); [solve_index.. |].
  eexists. split; [done |].
  pose proof (pointwise_trans _ _ _ _ _ _
    (pointwise_trans _ _ _ _ _ _ (pointwise_trans _ _ _ _ _ _ Hd1 Hd2) Hd3) Hd4)
    as Hall.
  eapply pointwise_ext; [exact Hall |].
  unfold dark_module, fixed_footprint. solve_regions.
Qed.

(** ** Configuration-pixel blanking *)

Lemma color_cfg_pixels_pointwise N self_data data hide_rb :
  21 ≤ N → square N (default self_data data) →
  ∃ g', _color_cfg_pixels self_data data hide_rb = Ok g' ∧
    pointwise N
      (λ r c x, if cfg_footprint N hide_rb r c then C_FIX_BACK else x)
      (default self_data data) g'.
Proof.
  intros HN Hsq. unfold _color_cfg_pixels.
  set (g := default self_data data) in *.
  (* the finder blocks and their format bands *)
  destruct (for_each_range
    (λ k d, pointwise N
       (λ r c x,
          if decide ((0 ≤ r < k ∧ (c < 9 ∨ N - 8 ≤ c))
                     ∨ (N - 8 ≤ r < N - 8 + Z.min k 8 ∧ c < 8))
          then C_FIX_BACK else x) g d)
    0 9
    (λ i data,
      data <- assign_row_slice data i None (Some 9) (repeat C_FIX_BACK 9);;
      data <- assign_row_slice data i (Some (-8)) None (repeat C_FIX_BACK 8);;
      if decide (i < 8)
      then assign_row_slice data (-8 + i) None (Some 8) (repeat C_FIX_BACK 8)
      else Ok data) g)
    as (d1 & -> & Hd1); [lia | | |].
  { eapply pointwise_ext; [by apply pointwise_refl |]. solve_regions. }
  { intros k d Hk Hd.
    destruct (fill_row_slice N d (proj1 Hd) k k None (Some 9) 0 9 C_FIX_BACK 9)
      as (e1 & -> & Hp1); [solve_index | solve_bound.. | lia | lia |].
    cbn [bind].
    destruct (fill_row_slice N e1 (proj1 Hp1) k k (Some (-8)) None (N - 8) N
                C_FIX_BACK 8)
      as (e2 & -> & Hp2); [solve_index | solve_bound.. | lia | lia |].
    cbn [bind].
    pose proof (pointwise_trans _ _ _ _ _ _
      (pointwise_trans _ _ _ _ _ _ Hd Hp1) Hp2) as H12.
    destruct (decide (k < 8)) as [Hlt | Hge].
    - destruct (fill_row_slice N e2 (proj1 Hp2) (-8 + k) (N + (-8 + k))
                  None (Some 8) 0 8 C_FIX_BACK 8)
        as (e3 & -> & Hp3); [solve_index | solve_bound.. | lia | lia |].
      eexists. split; [done |].
      eapply pointwise_ext; [exact (pointwise_trans _ _ _ _ _ _ H12 Hp3) |].
      solve_regions.
    - eexists. split; [done |].
      eapply pointwise_ext; [exact H12 |]. solve_regions. }
  cbn [bind].
  (* the horizontal timing strip *)
  replace (len d1) with N by (symmetry; apply Hd1).
  destruct (fill_row_slice N d1 (proj1 Hd1) 6 6 (Some 8) (Some (-8)) 8 (N - 8)
              C_FIX_BACK (N - 16))
    as (d2 & -> & Hd2); [solve_index | solve_bound.. | lia | lia |].
  cbn [bind].
  (* the vertical timing strip *)
  replace (len d2) with N by (symmetry; apply Hd2).
  destruct (for_each_range
    (λ k d, pointwise N
       (λ r c x, if decide (9 ≤ r < k ∧ c = 6) then C_FIX_BACK else x) d2 d)
    9 (N - 8)
    (λ i data, assign_cell data i 6 C_FIX_BACK) d2)
    as (d3 & -> & Hd3); [lia | | |].
  { eapply pointwise_ext; [apply pointwise_refl, Hd2 |]. solve_regions. }
  { intros k d Hk Hd.
    destruct (assign_cell_spec N d (proj1 Hd) k 6 k 6 C_FIX_BACK)
      as (e & -> & Hp); [solve_index.. |].
    eexists. split; [done |].
    eapply pointwise_ext; [exact (pointwise_trans _ _ _ _ _ _ Hd Hp) |].
    solve_regions. }
  cbn [bind].
  (* column 8 below the dark module *)
  destruct (for_each_range
    (λ k d, pointwise N
       (λ r c x, if decide (N - 8 ≤ r < N - 8 + k ∧ c = 8)
                 then C_FIX_BACK else x) d3 d)
    0 8
    (λ i data, assign_cell data (-8 + i) 8 C_FIX_BACK) d3)
    as (d4 & -> & Hd4); [lia | | |].
  { eapply pointwise_ext; [apply pointwise_refl, Hd3 |]. solve_regions. }
  { intros k d Hk Hd.
    destruct (assign_cell_spec N d (proj1 Hd) (-8 + k) 8 (N + (-8 + k)) 8
                C_FIX_BACK)
      as (e & -> & Hp); [solve_index.. |].
    eexists. split; [done |].
    eapply pointwise_ext; [exact (pointwise_trans _ _ _ _ _ _ Hd Hp) |].
    solve_regions. }
  cbn [bind].
  pose proof (pointwise_trans _ _ _ _ _ _
    (pointwise_trans _ _ _ _ _ _ (pointwise_trans _ _ _ _ _ _ Hd1 Hd2) Hd3) Hd4)
    as H14.
  destruct hide_rb.
  - (* the length and mode cells *)
    destruct (for_each_range
      (λ k d, pointwise N
         (λ r c x, if decide (N - 6 ≤ r < N - 6 + k ∧ N - 2 ≤ c)
                   then C_FIX_BACK else x) d4 d)
      0 6
      (λ i data,
        assign_row_slice data (-6 + i) (Some (-2)) None (repeat C_FIX_BACK 2)) d4)
      as (d5 & -> & Hd5); [lia | | |].
    { eapply pointwise_ext; [apply pointwise_refl, Hd4 |]. solve_regions. }
    { intros k d Hk Hd.
      destruct (fill_row_slice N d (proj1 Hd) (-6 + k) (N + (-6 + k))
                  (Some (-2)) None (N - 2) N C_FIX_BACK 2)
        as (e & -> & Hp); [solve_index | solve_bound.. | lia | lia |].
      eexists. split; [done |].
      eapply pointwise_ext; [exact (pointwise_trans _ _ _ _ _ _ Hd Hp) |].
      solve_regions. }
    eexists. split; [done |].
    eapply pointwise_ext; [exact (pointwise_trans _ _ _ _ _ _ H14 Hd5) |].
    unfold cfg_footprint, format_footprint, finder_format_bands,
      timing_strips, dark_module_column, length_mode_area.
    solve_regions.
  - eexists. split; [done |].
    eapply pointwise_ext; [exact H14 |].
    unfold cfg_footprint, format_footprint, finder_format_bands,
      timing_strips, dark_module_column, length_mode_area.
    solve_regions.
Qed.

(** ** Sweeps over the grid *)

(** A loop whose iteration [k] rewrites exactly the cells keyed [k]. *)
Lemma for_each_sweep N (key : Z → Z → Z) (G : Z → Z → Z → Z) body hi g :
  square N g → 0 ≤ hi →
  (∀ k d, 0 ≤ k < hi → square N d →
     ∃ d', body k d = Ok d' ∧
       pointwise N (λ r c x, if decide (key r c = k) then G r c x else x) d d') →
  ∃ g', for_each (range 0 hi) body g = Ok g' ∧
    pointwise N (λ r c x, if decide (0 ≤ key r c < hi) then G r c x else x) g g'.
Proof.
  intros Hsq Hhi Hbody.
  destruct (for_each_range
    (λ k d, pointwise N
       (λ r c x, if decide (0 ≤ key r c < k) then G r c x else x) g d)
    0 hi body g) as (g' & Hg' & Hp); [done | | | by exists g'].
  - eapply pointwise_ext; [by apply pointwise_refl |]. solve_regions.
  - intros k d Hk Hd. destruct (Hbody k d Hk (proj1 Hd)) as (d' & -> & Hd').
    eexists. split; [done |].
    eapply pointwise_ext; [exact (pointwise_trans _ _ _ _ _ _ Hd Hd') |].
    solve_regions.
Qed.

Section CellSteps.
Context (N : Z) (d : grid) (Hsq : square N d).
Context (r c : Z) (Hr : 0 ≤ r < N) (Hc : 0 ≤ c < N) (h : Z → Z).

(** The cell is left alone, and [h] would not have changed it. *)
Lemma keep_cell_as_update :
  h (peek d r c) = peek d r c →
  pointwise N (λ r' c' x, if decide (r' = r ∧ c' = c) then h x else x) d d.
Proof using Hsq.
  intros Hh. split; [done |]. intros r' c' _ _.
  case_decide as Hin; [| done]. by destruct Hin as [-> ->].
Qed.

(** The cell is overwritten with the value [h] gives it. *)
Lemma assign_cell_as_update v :
  v = h (peek d r c) →
  ∃ d', assign_cell d r c v = Ok d' ∧
    pointwise N (λ r' c' x, if decide (r' = r ∧ c' = c) then h x else x) d d'.
Proof using Hsq Hr Hc.
  intros ->.
  destruct (update_cell_spec N d Hsq r c r c h) as (d' & _ & Hd' & Hp);
    [solve_index.. |].
  by exists d'.
Qed.
End CellSteps.

(** ** The mask overlay *)

Lemma color_mask_pointwise N self_data show_data m mask_fun :
  21 ≤ N → square N self_data → MASKS !! m = Some mask_fun →
  ∃ g', _color_mask self_data show_data (Some m) = Ok g' ∧
    pointwise N
      (λ r c x, mask_overlay mask_fun show_data r c
                  (if cfg_footprint N false r c then C_FIX_BACK else x))
      self_data g'.
Proof.
  intros HN Hsq Hm. unfold _color_mask. cbn [mask_id_or_default bind].
  destruct (color_cfg_pixels_pointwise N self_data None false HN Hsq)
    as (d1 & -> & Hd1).
  cbn [bind default] in *. unfold masks_getitem. rewrite Hm. cbn [bind].
  replace (len d1) with N by (symmetry; apply Hd1).
  destruct (for_each_sweep N (λ r _, r) (mask_overlay mask_fun show_data)
    (λ i data,
      row0 <- getitem data 0;;
      for_each (range 0 (len row0)) (λ j data,
        val <- cell data i j;;
        if decide (val = C_FIX_BACK) then Ok data
        else if mask_fun i j then assign_cell data i j C_MASK
        else if negb show_data then assign_cell data i j C_BACK
        else Ok data) data) N d1 (proj1 Hd1)) as (d2 & -> & Hd2); [lia | |].
  - intros i d Hi Hd.
    destruct (square_row N d Hd 0 0) as (row0 & -> & _ & Hlen0); [solve_index |].
    cbn [bind]. rewrite Hlen0.
    destruct (for_each_sweep N (λ r c, if decide (r = i) then c else -1)
      (mask_overlay mask_fun show_data)
      (λ j data,
        val <- cell data i j;;
        if decide (val = C_FIX_BACK) then Ok data
        else if mask_fun i j then assign_cell data i j C_MASK
        else if negb show_data then assign_cell data i j C_BACK
        else Ok data) N d Hd) as (d' & -> & Hp); [lia | |].
    + intros j e Hj He.
      rewrite (square_cell N e He i j i j) by solve_index. cbn [bind].
      assert (∃ e', (if decide (peek e i j = C_FIX_BACK) then Ok e
                     else if mask_fun i j then assign_cell e i j C_MASK
                     else if negb show_data then assign_cell e i j C_BACK
                     else Ok e) = Ok e' ∧
                pointwise N
                  (λ r c x, if decide (r = i ∧ c = j)
                            then mask_overlay mask_fun show_data i j x else x)
                  e e') as (e' & -> & Hp).
      { unfold mask_overlay.
        destruct (decide (peek e i j = C_FIX_BACK)) as [Hfix | Hfix];
          [| destruct (mask_fun i j); [| destruct (negb show_data)]].
        - exists e. split; [done |]. apply keep_cell_as_update; [done |].
          by rewrite decide_True.
        - apply assign_cell_as_update; [done.. |]. by rewrite decide_False.
        - apply assign_cell_as_update; [done.. |]. by rewrite decide_False.
        - exists e. split; [done |]. apply keep_cell_as_update; [done |].
          by rewrite decide_False. }
      eexists. split; [done |].
      eapply pointwise_ext; [exact Hp |]. solve_regions.
    + eexists. split; [done |].
      eapply pointwise_ext; [exact Hp |]. solve_regions.
  - eexists. split; [done |].
    eapply pointwise_ext; [exact (pointwise_trans _ _ _ _ _ _ Hd1 Hd2) |].
    solve_regions.
Qed.

(** ** The mask table *)

Lemma MASKS_defined m : 0 ≤ m ≤ 7 → ∃ mask_fun, MASKS !! m = Some mask_fun.
Proof.
  intros Hm.
  assert (m = 0 ∨ m = 1 ∨ m = 2 ∨ m = 3 ∨ m = 4 ∨ m = 5 ∨ m = 6 ∨ m = 7)
    as Hcases by lia.
  destruct_or!; subst m; eexists; reflexivity.
Qed.

Lemma MASKS_undefined m : ¬ (0 ≤ m ≤ 7) → MASKS !! m = None.
Proof.
  intros Hm. unfold MASKS. apply not_elem_of_list_to_map_1. simpl.
  rewrite !elem_of_cons, elem_of_nil. lia.
Qed.

(** ** Mask reversal *)

Lemma reverse_mask_pointwise N self_data m mask_fun :
  21 ≤ N → square N self_data → MASKS !! m = Some mask_fun →
  ∃ g', _reverse_mask self_data (Some m) = Ok g' ∧
    pointwise N
      (λ r c x,
         if negb (cfg_footprint N false r c) && bool_decide (x ≠ C_FIX_BACK)
            && mask_fun r c
         then flip_color x else x)
      self_data g'.
Proof.
  intros HN Hsq Hm. unfold _reverse_mask. cbn [mask_id_or_default bind].
  destruct (color_mask_pointwise N self_data false m mask_fun HN Hsq Hm)
    as (mask & -> & Hmask).
  cbn [bind]. replace (len mask) with N by (symmetry; apply Hmask).
  destruct (for_each_sweep N (λ r _, r)
    (λ r c x, if decide (peek mask r c = C_MASK) then flip_color x else x)
    (λ i data,
      row0 <- getitem mask 0;;
      for_each (range 0 (len row0)) (λ j data,
        m <- cell mask i j;;
        if decide (m = C_MASK)
        then val <- cell data i j;; assign_cell data i j (flip_color val)
        else Ok data) data) N self_data Hsq) as (g' & -> & Hp); [lia | |].
  - intros i d Hi Hd.
    destruct (square_row N mask (proj1 Hmask) 0 0) as (row0 & -> & _ & Hlen0);
      [solve_index |].
    cbn [bind]. rewrite Hlen0.
    destruct (for_each_sweep N (λ r c, if decide (r = i) then c else -1)
      (λ r c x, if decide (peek mask r c = C_MASK) then flip_color x else x)
      (λ j data,
        m <- cell mask i j;;
        if decide (m = C_MASK)
        then val <- cell data i j;; assign_cell data i j (flip_color val)
        else Ok data) N d Hd) as (d' & -> & Hp); [lia | |].
    + intros j e Hj He.
      rewrite (square_cell N mask (proj1 Hmask) i j i j) by solve_index.
      cbn [bind].
      destruct (decide (peek mask i j = C_MASK)) as [Hhit | Hmiss].
      * destruct (update_cell_spec N e He i j i j flip_color)
          as (e' & -> & He' & Hp); [solve_index.. |].
        cbn [bind]. rewrite He'. eexists. split; [done |].
        eapply pointwise_ext; [exact Hp |]. solve_regions.
      * exists e. split; [done |].
        eapply pointwise_ext; [by apply pointwise_refl |]. solve_regions.
    + eexists. split; [done |].
      eapply pointwise_ext; [exact Hp |]. solve_regions.
  - eexists. split; [done |]. split; [apply Hp |].
    intros r c Hr Hc. rewrite (proj2 Hp r c Hr Hc).
    rewrite decide_True by lia.
    rewrite (proj2 Hmask r c Hr Hc). unfold mask_overlay.
    destruct (cfg_footprint N false r c), (mask_fun r c); cbn [negb andb];
      repeat case_bool_decide; repeat case_decide; cbn [andb];
      first [done | unfold C_FIX_BACK, C_MASK, C_BACK in *; lia].
Qed.

(** ** Data grids *)

Lemma square_lookup N g (i j : nat) row v :
  square N g → g !! i = Some row → row !! j = Some v →
  0 ≤ Z.of_nat i < N ∧ 0 ≤ Z.of_nat j < N ∧ peek g (Z.of_nat i) (Z.of_nat j) = v.
Proof.
  intros [Hlen Hrows] Hrow Hv.
  pose proof (lookup_lt_Some _ _ _ Hrow) as Hi.
  pose proof (lookup_lt_Some _ _ _ Hv) as Hj.
  pose proof (Forall_lookup_1 _ _ _ _ Hrows Hrow) as Hlen'. cbv beta in Hlen'.
  unfold len in *. split_and!; try lia.
  unfold peek. rewrite !Nat2Z.id.
  by rewrite (list_lookup_total_correct _ _ _ Hrow),
    (list_lookup_total_correct _ _ _ Hv).
Qed.

Lemma binary_peek N g r c :
  square N g → binary g → 0 ≤ r < N → 0 ≤ c < N →
  peek g r c = C_BACK ∨ peek g r c = C_FRONT.
Proof.
  intros Hsq Hbin Hr Hc. pose proof Hsq as [Hlen Hrows]. unfold len in *.
  destruct (lookup_lt_is_Some_2 g (Z.to_nat r)) as [row Hrow]; [lia |].
  pose proof (Forall_lookup_1 _ _ _ _ Hrows Hrow) as Hlen'. cbv beta in Hlen'.
  destruct (lookup_lt_is_Some_2 row (Z.to_nat c)) as [v Hv]; [lia |].
  destruct (square_lookup N g _ _ row v Hsq Hrow Hv) as (_ & _ & Hpeek).
  rewrite !Z2Nat.id in Hpeek by lia. rewrite Hpeek.
  exact (Forall_lookup_1 _ _ _ _ (Forall_lookup_1 _ _ _ _ Hbin Hrow) Hv).
Qed.

Lemma peek_binary N g :
  square N g →
  (∀ r c, 0 ≤ r < N → 0 ≤ c < N → peek g r c = C_BACK ∨ peek g r c = C_FRONT) →
  binary g.
Proof.
  intros Hsq Hcells.
  apply Forall_lookup_2. intros i row Hrow.
  apply Forall_lookup_2. intros j v Hv.
  destruct (square_lookup N g i j row v Hsq Hrow Hv) as (Hi & Hj & <-).
  by apply Hcells.
Qed.

(** Two [N]×[N] grids with the same cells are the same grid. *)
Lemma grid_ext N g g' :
  square N g → square N g' →
  (∀ r c, 0 ≤ r < N → 0 ≤ c < N → peek g r c = peek g' r c) →
  g = g'.
Proof.
  intros Hsq Hsq' Hcells.
  apply (list_eq_same_length _ _ (Z.to_nat N));
    [destruct Hsq' as [H _]; unfold len in H; lia
    |destruct Hsq as [H _]; unfold len in H; lia |].
  intros i row row' Hi Hrow Hrow'.
  pose proof (Forall_lookup_1 _ _ _ _ (proj2 Hsq) Hrow) as Hlen.
  pose proof (Forall_lookup_1 _ _ _ _ (proj2 Hsq') Hrow') as Hlen'.
  apply (list_eq_same_length _ _ (Z.to_nat N)); unfold len in *; [lia.. |].
  intros j v v' Hj Hv Hv'.
  destruct (square_lookup N g i j row v Hsq Hrow Hv) as (Hi' & Hj' & <-).
  destruct (square_lookup N g' i j row' v' Hsq' Hrow' Hv') as (_ & _ & <-).
  by apply Hcells.
Qed.

Lemma flip_color_binary x :
  x = C_BACK ∨ x = C_FRONT → flip_color x = C_BACK ∨ flip_color x = C_FRONT.
Proof. unfold flip_color. case_decide; auto. Qed.

Lemma flip_color_involutive x :
  x = C_BACK ∨ x = C_FRONT → flip_color (flip_color x) = x.
Proof. intros [-> | ->]; reflexivity. Qed.

(** ** Reading the configuration fields *)

Lemma row_slice_spec N g i r lo hi a b :
  square N g → index N i = Some r →
  bound N lo 0 = a → bound N hi N = b → 0 ≤ a ≤ b ∧ b ≤ N →
  ∃ vals, row_slice g i lo hi = Ok vals ∧ len vals = b - a ∧
    ∀ k, 0 ≤ k < b - a → vals !!! Z.to_nat k = peek g r (a + k).
Proof.
  intros Hsq Hi Ha Hb Hab.
  destruct (square_row N g Hsq i r Hi) as (row & Hget & Hrow & Hlen).
  unfold row_slice. rewrite Hget. cbn [bind].
  eexists. split; [done |]. split; [by eapply getslice_len |].
  intros k Hk. rewrite (getslice_lookup N row Hlen lo hi a b) by done.
  unfold peek. by rewrite (list_lookup_total_correct _ _ _ Hrow).
Qed.

(** The last two cells of a row. *)
Lemma row_slice_trailing_pair N g i r :
  2 ≤ N → square N g → index N i = Some r →
  row_slice g i (Some (-2)) None = Ok [peek g r (N - 2); peek g r (N - 1)].
Proof.
  intros HN Hsq Hi.
  destruct (row_slice_spec N g i r (Some (-2)) None (N - 2) N Hsq Hi)
    as (vals & -> & Hlen & Hvals); [solve_bound.. | lia |].
  unfold len in Hlen.
  destruct vals as [|x [|y [|z vals]]]; simpl in Hlen; try lia.
  pose proof (Hvals 0 ltac:(lia)) as H0. pose proof (Hvals 1 ltac:(lia)) as H1.
  simpl in H0, H1. rewrite H0, H1. do 3 f_equal; f_equal; lia.
Qed.

(** Cells 2, 3 and 4 of a row. *)
Lemma row_slice_2_5 N g i r :
  5 ≤ N → square N g → index N i = Some r →
  row_slice g i (Some 2) (Some 5) = Ok [peek g r 2; peek g r 3; peek g r 4].
Proof.
  intros HN Hsq Hi.
  destruct (row_slice_spec N g i r (Some 2) (Some 5) 2 5 Hsq Hi)
    as (vals & -> & Hlen & Hvals); [solve_bound.. | lia |].
  unfold len in Hlen.
  destruct vals as [|x [|y [|z [|w vals]]]]; simpl in Hlen; try lia.
  pose proof (Hvals 0 ltac:(lia)) as H0. pose proof (Hvals 1 ltac:(lia)) as H1.
  pose proof (Hvals 2 ltac:(lia)) as H2.
  simpl in H0, H1, H2. by rewrite H0, H1, H2.
Qed.

Ltac solve_index_eq :=
  first [rewrite index_front by lia | rewrite index_back by lia]; f_equal; lia.

Lemma msg_len_bin_eval N rev :
  21 ≤ N → square N rev → binary rev →
  ∃ len_bin, msg_len_bin rev = Ok len_bin ∧
    bit_string len_bin = true ∧
    int2 (String.rev len_bin) = Ok (msg_len_as_specified N rev) ∧
    0 ≤ msg_len_as_specified N rev < 256.
Proof.
  intros HN Hsq Hbin. unfold msg_len_bin, msg_len_as_specified, msg_len_cells.
  change (range 0 4) with [0; 1; 2; 3]. cbn [for_each].
  rewrite (row_slice_trailing_pair N rev (-6 + 0) (N - 6))
    by first [lia | done | solve_index_eq]. cbn [bind].
  rewrite (row_slice_trailing_pair N rev (-6 + 1) (N - 5))
    by first [lia | done | solve_index_eq]. cbn [bind].
  rewrite (row_slice_trailing_pair N rev (-6 + 2) (N - 4))
    by first [lia | done | solve_index_eq]. cbn [bind].
  rewrite (row_slice_trailing_pair N rev (-6 + 3) (N - 3))
    by first [lia | done | solve_index_eq]. cbn [bind].
  unfold trailing_pair.
  destruct (binary_peek N rev (N - 6) (N - 2) Hsq Hbin ltac:(lia) ltac:(lia))
    as [-> | ->];
  destruct (binary_peek N rev (N - 6) (N - 1) Hsq Hbin ltac:(lia) ltac:(lia))
    as [-> | ->];
  destruct (binary_peek N rev (N - 5) (N - 2) Hsq Hbin ltac:(lia) ltac:(lia))
    as [-> | ->];
  destruct (binary_peek N rev (N - 5) (N - 1) Hsq Hbin ltac:(lia) ltac:(lia))
    as [-> | ->];
  destruct (binary_peek N rev (N - 4) (N - 2) Hsq Hbin ltac:(lia) ltac:(lia))
    as [-> | ->];
  destruct (binary_peek N rev (N - 4) (N - 1) Hsq Hbin ltac:(lia) ltac:(lia))
    as [-> | ->];
  destruct (binary_peek N rev (N - 3) (N - 2) Hsq Hbin ltac:(lia) ltac:(lia))
    as [-> | ->];
  destruct (binary_peek N rev (N - 3) (N - 1) Hsq Hbin ltac:(lia) ltac:(lia))
    as [-> | ->];
  (eexists; split; [reflexivity |]; vm_compute; intuition congruence).
Qed.

Lemma codification_mode_bin_eval N rev :
  21 ≤ N → square N rev → binary rev →
  ∃ cod_mode, codification_mode_bin rev = Ok cod_mode ∧
    bit_string cod_mode = true ∧
    int2 (String.rev cod_mode) = Ok (codification_mode_as_specified N rev) ∧
    0 ≤ codification_mode_as_specified N rev ≤ 15.
Proof.
  intros HN Hsq Hbin.
  unfold codification_mode_bin, codification_mode_as_specified,
    codification_mode_cells.
  rewrite (row_slice_trailing_pair N rev (-2) (N - 2))
    by first [lia | done | solve_index_eq]. cbn [bind].
  rewrite (row_slice_trailing_pair N rev (-1) (N - 1))
    by first [lia | done | solve_index_eq]. cbn [bind].
  unfold trailing_pair.
  destruct (binary_peek N rev (N - 2) (N - 2) Hsq Hbin ltac:(lia) ltac:(lia))
    as [-> | ->];
  destruct (binary_peek N rev (N - 2) (N - 1) Hsq Hbin ltac:(lia) ltac:(lia))
    as [-> | ->];
  destruct (binary_peek N rev (N - 1) (N - 2) Hsq Hbin ltac:(lia) ltac:(lia))
    as [-> | ->];
  destruct (binary_peek N rev (N - 1) (N - 1) Hsq Hbin ltac:(lia) ltac:(lia))
    as [-> | ->];
  (eexists; split; [reflexivity |]; vm_compute; intuition congruence).
Qed.

(** ** The constructor *)

(** C1. When [__init__] returns, [codification_mode()] on the new instance
    is 4 (and the instance holds the demasked grid of its data); when the
    mode field of the demasked grid reads as any other value, [__init__]
    fails on its assertion.  This holds for every text, every
    error-correction level and every matrix the encoder may deliver. *)
Theorem init_requires_byte_mode
    (qrcode_get_matrix : string → Z → result (list (list bool)))
    (qr_text : string) (error_correction : Z) :
  (∀ self, __init__ qrcode_get_matrix qr_text error_correction = Ok self →
     codification_mode (data_rev self) = Ok 4 ∧
     _reverse_mask (data self) None = Ok (data_rev self)) ∧
  (∀ qr_data rev mode,
     qrcode_get_matrix qr_text error_correction = Ok qr_data →
     _reverse_mask (colors_of_matrix qr_data) None = Ok rev →
     codification_mode rev = Ok mode →
     mode ≠ 4 →
     __init__ qrcode_get_matrix qr_text error_correction = Raise AssertionError).
Proof.
  unfold __init__. split.
  - intros self Hinit.
    apply bind_Ok_inv in Hinit as (qr_data & _ & Hinit).
    apply bind_Ok_inv in Hinit as (rev & Hrev & Hinit).
    apply bind_Ok_inv in Hinit as (mode & Hmode & Hinit).
    cbn [data_rev] in Hmode.
    destruct (decide (mode = 4)) as [-> |]; [| done].
    injection Hinit as <-. by cbn [data_rev data].
  - intros qr_data rev mode -> Hrev Hmode Hne. cbn [bind].
    rewrite Hrev. cbn [bind data_rev]. rewrite Hmode. cbn [bind].
    by rewrite decide_False.
Qed.

Lemma init_requires_byte_mode_witness :
  (∃ self, __init__ (fixed_encoder byte_mode_matrix) "hey there" 1 = Ok self ∧
     codification_mode (data_rev self) = Ok 4) ∧
  __init__ (fixed_encoder blank_matrix) "hey there" 1 = Raise AssertionError.
Proof.
  split.
  - eexists. split; [vm_compute; reflexivity |].
    apply (proj1 (init_requires_byte_mode
                    (fixed_encoder byte_mode_matrix) "hey there" 1)).
    vm_compute. reflexivity.
  - eapply (proj2 (init_requires_byte_mode
                     (fixed_encoder blank_matrix) "hey there" 1));
      [reflexivity | vm_compute; reflexivity | vm_compute; reflexivity | lia].
Defined.

(** ** Mask reversal on data grids *)

Lemma cfg_pixels_fixed_back N g cfg r c :
  square N g → binary g →
  pointwise N (λ r c x, if cfg_footprint N false r c then C_FIX_BACK else x)
    g cfg →
  0 ≤ r < N → 0 ≤ c < N →
  peek cfg r c = C_FIX_BACK ↔ cfg_footprint N false r c = true.
Proof.
  intros Hsq Hbin [_ Hcfg] Hr Hc. rewrite Hcfg by done.
  destruct (cfg_footprint N false r c); [done |].
  destruct (binary_peek N g r c Hsq Hbin Hr Hc) as [-> | ->]; done.
Qed.

Lemma reverse_mask_binary N g m mask_fun :
  21 ≤ N → square N g → binary g → MASKS !! m = Some mask_fun →
  ∃ g', _reverse_mask g (Some m) = Ok g' ∧ square N g' ∧ binary g' ∧
    ∀ r c, 0 ≤ r < N → 0 ≤ c < N →
      peek g' r c =
        if negb (cfg_footprint N false r c) && mask_fun r c
        then flip_color (peek g r c) else peek g r c.
Proof.
  intros HN Hsq Hbin Hm.
  destruct (reverse_mask_pointwise N g m mask_fun HN Hsq Hm)
    as (g' & Hg' & Hsq' & Hcells).
  assert (∀ r c, 0 ≤ r < N → 0 ≤ c < N →
      peek g' r c =
        if negb (cfg_footprint N false r c) && mask_fun r c
        then flip_color (peek g r c) else peek g r c) as Hflip.
  { intros r c Hr Hc. rewrite Hcells by done.
    rewrite bool_decide_eq_true_2; [by rewrite andb_true_r |].
    destruct (binary_peek N g r c Hsq Hbin Hr Hc) as [-> | ->]; done. }
  exists g'. split_and!; [done.. | | done].
  apply (peek_binary N); [done |]. intros r c Hr Hc. rewrite Hflip by done.
  pose proof (binary_peek N g r c Hsq Hbin Hr Hc) as Hx.
  destruct (negb (cfg_footprint N false r c) && mask_fun r c);
    [by apply flip_color_binary | done].
Qed.

(** C2. For a mask id [m] in 0..7 and an [N]×[N] grid of data cells,
    [_reverse_mask] returns an [N]×[N] grid in which exactly the cells that
    [_color_cfg_pixels] does not force to [C_FIX_BACK] (those outside its
    footprint) and that satisfy mask function [m] are flipped, [C_FRONT] to
    [C_BACK] and [C_BACK] to [C_FRONT]; every other cell is the source
    cell. *)
Theorem reverse_mask_flips_masked_cells N g m :
  21 ≤ N → square N g → binary g → 0 ≤ m ≤ 7 →
  ∃ mask_fun cfg g',
    MASKS !! m = Some mask_fun ∧
    _color_cfg_pixels g None false = Ok cfg ∧
    _reverse_mask g (Some m) = Ok g' ∧
    square N g' ∧
    ∀ r c, 0 ≤ r < N → 0 ≤ c < N →
      (peek cfg r c = C_FIX_BACK ↔ cfg_footprint N false r c = true) ∧
      peek g' r c =
        if bool_decide (peek cfg r c ≠ C_FIX_BACK) && mask_fun r c
        then (if decide (peek g r c = C_FRONT) then C_BACK else C_FRONT)
        else peek g r c.
Proof.
  intros HN Hsq Hbin Hm.
  destruct (MASKS_defined m Hm) as [mask_fun Hfun].
  destruct (color_cfg_pixels_pointwise N g None false HN Hsq) as (cfg & Hcfg & Hp).
  destruct (reverse_mask_binary N g m mask_fun HN Hsq Hbin Hfun)
    as (g' & Hg' & Hsq' & _ & Hflip).
  exists mask_fun, cfg, g'. split_and!; [done.. |].
  intros r c Hr Hc.
  pose proof (cfg_pixels_fixed_back N g cfg r c Hsq Hbin Hp Hr Hc) as Hfix.
  split; [done |]. rewrite Hflip by done. unfold flip_color.
  destruct (decide (peek cfg r c = C_FIX_BACK)) as [Heq | Hne].
  - rewrite (proj1 Hfix Heq). rewrite bool_decide_eq_false_2; [done |].
    by intros Hne.
  - rewrite bool_decide_eq_true_2 by done.
    destruct (cfg_footprint N false r c); [| done].
    exfalso. by apply Hne, Hfix.
Qed.

Lemma reverse_mask_flips_masked_cells_witness :
  ∃ mask_fun cfg g',
    MASKS !! 2 = Some mask_fun ∧
    _color_cfg_pixels byte_mode_grid None false = Ok cfg ∧
    _reverse_mask byte_mode_grid (Some 2) = Ok g' ∧
    square 21 g' ∧
    ∀ r c, 0 ≤ r < 21 → 0 ≤ c < 21 →
      (peek cfg r c = C_FIX_BACK ↔ cfg_footprint 21 false r c = true) ∧
      peek g' r c =
        if bool_decide (peek cfg r c ≠ C_FIX_BACK) && mask_fun r c
        then (if decide (peek byte_mode_grid r c = C_FRONT)
              then C_BACK else C_FRONT)
        else peek byte_mode_grid r c.
Proof.
  apply (reverse_mask_flips_masked_cells 21 byte_mode_grid 2);
    [lia | apply (bool_decide_unpack _); vm_compute; exact I
         | apply (bool_decide_unpack _); vm_compute; exact I | lia].
Defined.

(** C3. For a mask id [m] in 0..7 and an [N]×[N] grid of data cells,
    reversing the mask twice with the same id gives the grid back. *)
Theorem reverse_mask_involutive N g m :
  21 ≤ N → square N g → binary g → 0 ≤ m ≤ 7 →
  ∃ g', _reverse_mask g (Some m) = Ok g' ∧ _reverse_mask g' (Some m) = Ok g.
Proof.
  intros HN Hsq Hbin Hm.
  destruct (MASKS_defined m Hm) as [mask_fun Hfun].
  destruct (reverse_mask_binary N g m mask_fun HN Hsq Hbin Hfun)
    as (g' & Hg' & Hsq' & Hbin' & Hflip).
  destruct (reverse_mask_binary N g' m mask_fun HN Hsq' Hbin' Hfun)
    as (g'' & Hg'' & Hsq'' & _ & Hflip').
  exists g'. split; [done |]. rewrite Hg''. f_equal.
  apply (grid_ext N); [done.. |]. intros r c Hr Hc.
  rewrite Hflip', Hflip by done.
  destruct (negb (cfg_footprint N false r c) && mask_fun r c); [| done].
  apply flip_color_involutive. by apply (binary_peek N).
Qed.

Lemma reverse_mask_involutive_witness :
  ∃ g', _reverse_mask byte_mode_grid (Some 2) = Ok g' ∧
        _reverse_mask g' (Some 2) = Ok byte_mode_grid.
Proof.
  apply (reverse_mask_involutive 21 byte_mode_grid 2);
    [lia | apply (bool_decide_unpack _); vm_compute; exact I
         | apply (bool_decide_unpack _); vm_compute; exact I | lia].
Defined.

(** ** The configuration fields *)

(** C4. On an [N]×[N] demasked grid of data cells, [msg_len()] returns the
    number obtained from the two trailing cells of rows N-6, N-5, N-4 and
    N-3, read left to right as bits, the eight bits reversed and taken as a
    binary numeral with the most significant bit first; it is not negative. *)
Theorem msg_len_reads_length_field N data_rev :
  21 ≤ N → square N data_rev → binary data_rev →
  msg_len data_rev = Ok (msg_len_as_specified N data_rev) ∧
  0 ≤ msg_len_as_specified N data_rev.
Proof.
  intros HN Hsq Hbin.
  destruct (msg_len_bin_eval N data_rev HN Hsq Hbin)
    as (len_bin & Hbin_eq & _ & Hint & Hrange).
  unfold msg_len. rewrite Hbin_eq. cbn [bind]. split; [done | lia].
Qed.

Lemma msg_len_reads_length_field_witness :
  msg_len byte_mode_grid = Ok (msg_len_as_specified 21 byte_mode_grid) ∧
  0 ≤ msg_len_as_specified 21 byte_mode_grid.
Proof.
  apply (msg_len_reads_length_field 21 byte_mode_grid);
    [lia | apply (bool_decide_unpack _); vm_compute; exact I
         | apply (bool_decide_unpack _); vm_compute; exact I].
Defined.

(** C5. On an [N]×[N] demasked grid of data cells, [codification_mode()]
    returns the number obtained from the two trailing cells of row N-2 and
    then of row N-1, read as bits, the four bits reversed and taken as a
    binary numeral with the most significant bit first; it lies in 0..15. *)
Theorem codification_mode_reads_mode_field N data_rev :
  21 ≤ N → square N data_rev → binary data_rev →
  codification_mode data_rev = Ok (codification_mode_as_specified N data_rev) ∧
  0 ≤ codification_mode_as_specified N data_rev ≤ 15.
Proof.
  intros HN Hsq Hbin.
  destruct (codification_mode_bin_eval N data_rev HN Hsq Hbin)
    as (cod_mode & Hbin_eq & _ & Hint & Hrange).
  unfold codification_mode. rewrite Hbin_eq. cbn [bind]. by split.
Qed.

Lemma codification_mode_reads_mode_field_witness :
  codification_mode byte_mode_grid =
    Ok (codification_mode_as_specified 21 byte_mode_grid) ∧
  0 ≤ codification_mode_as_specified 21 byte_mode_grid ≤ 15.
Proof.
  apply (codification_mode_reads_mode_field 21 byte_mode_grid);
    [lia | apply (bool_decide_unpack _); vm_compute; exact I
         | apply (bool_decide_unpack _); vm_compute; exact I].
Defined.

(** C6. [mask_id()] returns the number whose three binary digits, most
    significant first, are the cells (8,2), (8,3) and (8,4) of the raw grid
    [self.data] read as bits; it lies in 0..7. *)
Theorem mask_id_reads_format_bits N self_data :
  21 ≤ N → square N self_data →
  mask_id self_data = Ok (mask_id_as_specified self_data) ∧
  0 ≤ mask_id_as_specified self_data ≤ 7.
Proof.
  intros HN Hsq. unfold mask_id, mask_id_as_specified.
  rewrite (row_slice_2_5 N self_data 8 8) by first [lia | done | solve_index].
  cbn [bind]. unfold bit_of_color.
  generalize (peek self_data 8 2) (peek self_data 8 3) (peek self_data 8 4).
  intros x y z. cbn [fmap list_fmap].
  destruct (decide (x = C_FRONT)), (decide (y = C_FRONT)),
    (decide (z = C_FRONT)); vm_compute; intuition congruence.
Qed.

Lemma mask_id_reads_format_bits_witness :
  mask_id byte_mode_grid = Ok (mask_id_as_specified byte_mode_grid) ∧
  0 ≤ mask_id_as_specified byte_mode_grid ≤ 7.
Proof.
  apply (mask_id_reads_format_bits 21 byte_mode_grid);
    [lia | apply (bool_decide_unpack _); vm_compute; exact I].
Defined.

(** ** Region colouring *)

(** C7, as the program has it.  On an [N]×[N] grid with [N] at least 21,
    [_color_fixed_pixels] recolours every cell of the finder blocks and of
    the two timing strips from [C_FRONT] to [C_FIX_FRONT] and from anything
    else to [C_FIX_BACK], sets the dark module at (N-8, 8) to [C_FIX_FRONT]
    whatever it held, and leaves every other cell as it was. *)
Theorem color_fixed_pixels_footprint N self_data data :
  21 ≤ N → square N (default self_data data) →
  ∃ g', _color_fixed_pixels self_data data = Ok g' ∧ square N g' ∧
    ∀ r c, 0 ≤ r < N → 0 ≤ c < N →
      peek g' r c =
        if dark_module N r c then C_FIX_FRONT
        else if fixed_footprint N r c
             then (if decide (peek (default self_data data) r c = C_FRONT)
                   then C_FIX_FRONT else C_FIX_BACK)
             else peek (default self_data data) r c.
Proof.
  intros HN Hsq.
  destruct (color_fixed_pixels_pointwise N self_data data HN Hsq)
    as (g' & Hg' & Hsq' & Hcells).
  exists g'. split_and!; [done.. |]. intros r c Hr Hc.
  rewrite Hcells by done. by unfold fix_color.
Qed.

Lemma color_fixed_pixels_footprint_witness :
  ∃ g', _color_fixed_pixels byte_mode_grid None = Ok g' ∧ square 21 g' ∧
    ∀ r c, 0 ≤ r < 21 → 0 ≤ c < 21 →
      peek g' r c =
        if dark_module 21 r c then C_FIX_FRONT
        else if fixed_footprint 21 r c
             then (if decide (peek byte_mode_grid r c = C_FRONT)
                   then C_FIX_FRONT else C_FIX_BACK)
             else peek byte_mode_grid r c.
Proof.
  apply (color_fixed_pixels_footprint 21 byte_mode_grid None);
    [lia | apply (bool_decide_unpack _); vm_compute; exact I].
Defined.

(** C7, as the specification states it, fails on the 21×21 grid of light
    data cells: the dark module at (13, 8) is [C_BACK] in the source and
    [C_FIX_FRONT], not [C_FIX_BACK], in the result. *)
Lemma color_fixed_pixels_dark_module_forced :
  square 21 (blank 21) ∧ binary (blank 21) ∧
  ∃ g', _color_fixed_pixels (blank 21) None = Ok g' ∧
    peek (blank 21) 13 8 = C_BACK ∧
    peek g' 13 8 = C_FIX_FRONT ∧
    ¬ fixed_pixels_as_specified 21 (blank 21) g'.
Proof.
  split; [apply (bool_decide_unpack _); vm_compute; exact I |].
  split; [apply (bool_decide_unpack _); vm_compute; exact I |].
  eexists. split; [vm_compute; reflexivity |].
  split; [reflexivity |]. split; [reflexivity |].
  intros Hspec. specialize (Hspec 13 8 ltac:(lia) ltac:(lia)).
  vm_compute in Hspec. discriminate Hspec.
Qed.

(** C8. On an [N]×[N] grid with [N] at least 21, [_color_cfg_pixels] sets
    every cell of the finder blocks with their format bands, of the timing
    strips and of the dark-module column to [C_FIX_BACK] whatever it held,
    and with [hide_rb] also the last two columns of the bottom six rows;
    every other cell is left as it was. *)
Theorem color_cfg_pixels_footprint N self_data data hide_rb :
  21 ≤ N → square N (default self_data data) →
  ∃ g', _color_cfg_pixels self_data data hide_rb = Ok g' ∧ square N g' ∧
    ∀ r c, 0 ≤ r < N → 0 ≤ c < N →
      peek g' r c =
        if format_footprint N r c
           || hide_rb && bool_decide (length_mode_area N r c)
        then C_FIX_BACK
        else peek (default self_data data) r c.
Proof.
  intros HN Hsq.
  destruct (color_cfg_pixels_pointwise N self_data data hide_rb HN Hsq)
    as (g' & Hg' & Hsq' & Hcells).
  by exists g'.
Qed.

Lemma color_cfg_pixels_footprint_witness :
  ∃ g', _color_cfg_pixels byte_mode_grid None true = Ok g' ∧ square 21 g' ∧
    ∀ r c, 0 ≤ r < 21 → 0 ≤ c < 21 →
      peek g' r c =
        if format_footprint 21 r c
           || true && bool_decide (length_mode_area 21 r c)
        then C_FIX_BACK
        else peek byte_mode_grid r c.
Proof.
  apply (color_cfg_pixels_footprint 21 byte_mode_grid None true);
    [lia | apply (bool_decide_unpack _); vm_compute; exact I].
Defined.

(** ** Mask ids outside the table *)

Lemma color_mask_invalid_id self_data show_data m :
  ¬ (0 ≤ m ≤ 7) →
  ∃ e, _color_mask self_data show_data (Some m) = Raise e ∧
    ∀ N, 21 ≤ N → square N self_data → e = KeyError.
Proof.
  intros Hm. unfold _color_mask. cbn [mask_id_or_default bind].
  unfold masks_getitem. rewrite (MASKS_undefined m Hm).
  destruct (_color_cfg_pixels self_data None false) as [cfg | e] eqn:Hcfg;
    cbn [bind].
  - by exists KeyError.
  - exists e. split; [done |]. intros N HN Hsq.
    destruct (color_cfg_pixels_pointwise N self_data None false HN Hsq)
      as (g' & Hg' & _).
    congruence.
Qed.

(** C9. With a mask id outside 0..7, [_color_mask] and [_reverse_mask]
    return no grid but raise; on an [N]×[N] grid with [N] at least 21 the
    exception is the [KeyError] of the lookup in the table of the eight
    mask functions. *)
Theorem invalid_mask_id_raises N self_data show_data m :
  ¬ (0 ≤ m ≤ 7) →
  (∃ e, _color_mask self_data show_data (Some m) = Raise e) ∧
  (∃ e, _reverse_mask self_data (Some m) = Raise e) ∧
  (21 ≤ N → square N self_data →
     _color_mask self_data show_data (Some m) = Raise KeyError ∧
     _reverse_mask self_data (Some m) = Raise KeyError).
Proof.
  intros Hm.
  destruct (color_mask_invalid_id self_data show_data m Hm) as (e & He & Hkey).
  destruct (color_mask_invalid_id self_data false m Hm) as (e' & He' & Hkey').
  assert (_reverse_mask self_data (Some m) = Raise e') as Hrev.
  { unfold _reverse_mask. cbn [mask_id_or_default bind]. by rewrite He'. }
  split; [by exists e |]. split; [by exists e' |].
  intros HN Hsq. rewrite He, Hrev.
  by rewrite (Hkey N HN Hsq), (Hkey' N HN Hsq).
Qed.

Lemma invalid_mask_id_raises_witness :
  (∃ e, _color_mask byte_mode_grid true (Some 8) = Raise e) ∧
  (∃ e, _reverse_mask byte_mode_grid (Some 8) = Raise e) ∧
  _color_mask byte_mode_grid true (Some 8) = Raise KeyError ∧
  _reverse_mask byte_mode_grid (Some 8) = Raise KeyError.
Proof.
  destruct (invalid_mask_id_raises 21 byte_mode_grid true 8 ltac:(lia))
    as (Hmask & Hrev & Hkey).
  split; [exact Hmask |]. split; [exact Hrev |].
  apply Hkey; [lia | apply (bool_decide_unpack _); vm_compute; exact I].
Defined.

(** ** Demasked grids *)

(** C10. For an [N]×[N] grid of data cells and a mask id in 0..7, the grid
    [_reverse_mask] returns is again an [N]×[N] grid of data cells; the
    strings [msg_len()] and [codification_mode()] build from it hold the
    characters 0 and 1 only, and both methods return a number. *)
Theorem demasked_grid_is_binary N g m :
  21 ≤ N → square N g → binary g → 0 ≤ m ≤ 7 →
  ∃ g', _reverse_mask g (Some m) = Ok g' ∧ square N g' ∧ binary g' ∧
    (∃ len_bin n, msg_len_bin g' = Ok len_bin ∧ bit_string len_bin = true ∧
       msg_len g' = Ok n) ∧
    (∃ cod_mode n, codification_mode_bin g' = Ok cod_mode ∧
       bit_string cod_mode = true ∧ codification_mode g' = Ok n).
Proof.
  intros HN Hsq Hbin Hm.
  destruct (MASKS_defined m Hm) as [mask_fun Hfun].
  destruct (reverse_mask_binary N g m mask_fun HN Hsq Hbin Hfun)
    as (g' & Hg' & Hsq' & Hbin' & _).
  exists g'. split_and!; [done.. | |].
  - destruct (msg_len_bin_eval N g' HN Hsq' Hbin')
      as (len_bin & Hlen & Hbits & Hint & _).
    exists len_bin, (msg_len_as_specified N g'). split_and!; [done.. |].
    unfold msg_len. by rewrite Hlen.
  - destruct (codification_mode_bin_eval N g' HN Hsq' Hbin')
      as (cod_mode & Hcod & Hbits & Hint & _).
    exists cod_mode, (codification_mode_as_specified N g'). split_and!; [done.. |].
    unfold codification_mode. by rewrite Hcod.
Qed.

Lemma demasked_grid_is_binary_witness :
  ∃ g', _reverse_mask byte_mode_grid (Some 5) = Ok g' ∧ square 21 g' ∧
    binary g' ∧
    (∃ len_bin n, msg_len_bin g' = Ok len_bin ∧ bit_string len_bin = true ∧
       msg_len g' = Ok n) ∧
    (∃ cod_mode n, codification_mode_bin g' = Ok cod_mode ∧
       bit_string cod_mode = true ∧ codification_mode g' = Ok n).
Proof.
  apply (demasked_grid_is_binary 21 byte_mode_grid 5);
    [lia | apply (bool_decide_unpack _); vm_compute; exact I
         | apply (bool_decide_unpack _); vm_compute; exact I | lia].
Defined.

(** * Further properties of the code *)

(** ** Compositions of the region colourings *)

Lemma fix_color_twice x : fix_color (fix_color x) = C_FIX_BACK.
Proof. unfold fix_color. by repeat case_decide. Qed.

(** X1. On an [N]×[N] grid with [N] at least 21, [_color_cfg_pixels]
    returns a grid that it maps to itself: blanking a blanked grid changes
    nothing. *)
Theorem color_cfg_pixels_idempotent N self_data data hide_rb :
  21 ≤ N → square N (default self_data data) →
  ∃ g', _color_cfg_pixels self_data data hide_rb = Ok g' ∧
        _color_cfg_pixels self_data (Some g') hide_rb = Ok g'.
Proof.
  intros HN Hsq.
  destruct (color_cfg_pixels_pointwise N self_data data hide_rb HN Hsq)
    as (g1 & Hg1 & Hp1).
  destruct (color_cfg_pixels_pointwise N self_data (Some g1) hide_rb HN (proj1 Hp1))
    as (g2 & Hg2 & Hp2).
  exists g1. split; [done |]. rewrite Hg2. f_equal.
  apply (grid_ext N); [apply Hp2 | apply Hp1 |]. intros r c Hr Hc.
  rewrite (proj2 Hp2 r c Hr Hc). cbn [default from_option id].
  rewrite (proj2 Hp1 r c Hr Hc).
  by destruct (cfg_footprint N hide_rb r c).
Qed.

Lemma color_cfg_pixels_idempotent_witness :
  ∃ g', _color_cfg_pixels byte_mode_grid None true = Ok g' ∧
        _color_cfg_pixels byte_mode_grid (Some g') true = Ok g'.
Proof.
  apply (color_cfg_pixels_idempotent 21 byte_mode_grid None true);
    [lia | apply (bool_decide_unpack _); vm_compute; exact I].
Defined.

(** X2. On an [N]×[N] grid with [N] at least 21, blanking the grid that
    [_color_fixed_pixels] returns gives the same grid as blanking the source:
    every cell the fixed-pixel colouring touches is blanked. *)
Theorem color_cfg_pixels_after_fixed N self_data data hide_rb :
  21 ≤ N → square N (default self_data data) →
  ∃ fixed cfg,
    _color_fixed_pixels self_data data = Ok fixed ∧
    _color_cfg_pixels self_data data hide_rb = Ok cfg ∧
    _color_cfg_pixels self_data (Some fixed) hide_rb = Ok cfg.
Proof.
  intros HN Hsq.
  destruct (color_fixed_pixels_pointwise N self_data data HN Hsq)
    as (fixed & Hfixed & Hpf).
  destruct (color_cfg_pixels_pointwise N self_data data hide_rb HN Hsq)
    as (cfg & Hcfg & Hpc).
  destruct (color_cfg_pixels_pointwise N self_data (Some fixed) hide_rb HN
              (proj1 Hpf)) as (cfg' & Hcfg' & Hpc').
  exists fixed, cfg. split_and!; [done.. |]. rewrite Hcfg'. f_equal.
  apply (grid_ext N); [apply Hpc' | apply Hpc |]. intros r c Hr Hc.
  rewrite (proj2 Hpc' r c Hr Hc), (proj2 Hpc r c Hr Hc).
  cbn [default from_option id].
  rewrite (proj2 Hpf r c Hr Hc).
  unfold cfg_footprint, format_footprint, finder_format_bands, timing_strips,
    dark_module_column, length_mode_area, dark_module, fixed_footprint.
  destruct hide_rb; solve_regions.
Qed.

Lemma color_cfg_pixels_after_fixed_witness :
  ∃ fixed cfg,
    _color_fixed_pixels byte_mode_grid None = Ok fixed ∧
    _color_cfg_pixels byte_mode_grid None false = Ok cfg ∧
    _color_cfg_pixels byte_mode_grid (Some fixed) false = Ok cfg.
Proof.
  apply (color_cfg_pixels_after_fixed 21 byte_mode_grid None false);
    [lia | apply (bool_decide_unpack _); vm_compute; exact I].
Defined.

(** X3. [_color_fixed_pixels] is not idempotent.  Applied to the grid it
    returned, it turns every cell of the finder blocks and timing strips to
    [C_FIX_BACK], keeps the dark module [C_FIX_FRONT] and leaves the other
    cells as in the source; so a cell of the footprint that holds [C_FRONT]
    in the source is [C_FIX_FRONT] after one pass and [C_FIX_BACK] after
    two, and the two results differ as soon as the source has such a cell
    (they are equal when it has none). *)
Theorem color_fixed_pixels_twice N self_data data :
  21 ≤ N → square N (default self_data data) →
  ∃ once twice,
    _color_fixed_pixels self_data data = Ok once ∧
    _color_fixed_pixels self_data (Some once) = Ok twice ∧
    square N twice ∧
    (∀ r c, 0 ≤ r < N → 0 ≤ c < N →
       peek twice r c =
         if dark_module N r c then C_FIX_FRONT
         else if fixed_footprint N r c then C_FIX_BACK
         else peek (default self_data data) r c) ∧
    (∀ r c, 0 ≤ r < N → 0 ≤ c < N →
       fixed_footprint N r c = true →
       peek (default self_data data) r c = C_FRONT →
       peek once r c = C_FIX_FRONT ∧ peek twice r c = C_FIX_BACK ∧
       once ≠ twice) ∧
    ((∀ r c, 0 ≤ r < N → 0 ≤ c < N →
        fixed_footprint N r c = true →
        peek (default self_data data) r c ≠ C_FRONT) →
     once = twice).
Proof.
  intros HN Hsq.
  destruct (color_fixed_pixels_pointwise N self_data data HN Hsq)
    as (once & Honce & Hsq1 & Hp1).
  destruct (color_fixed_pixels_pointwise N self_data (Some once) HN Hsq1)
    as (twice & Htwice & Hsq2 & Hp2).
  cbn [default from_option id] in Hp2.
  assert (∀ r c, 0 ≤ r < N → 0 ≤ c < N →
       peek twice r c =
         if dark_module N r c then C_FIX_FRONT
         else if fixed_footprint N r c then C_FIX_BACK
         else peek (default self_data data) r c) as Htwo.
  { intros r c Hr Hc. rewrite Hp2, Hp1 by done.
    destruct (dark_module N r c), (fixed_footprint N r c);
      first [done | apply fix_color_twice]. }
  assert (∀ r c, fixed_footprint N r c = true → dark_module N r c = false)
    as Hapart.
  { intros r c Hfoot. unfold fixed_footprint, dark_module in *.
    apply bool_decide_eq_true_1 in Hfoot. apply bool_decide_eq_false_2. lia. }
  exists once, twice. split_and!; [done.. | |].
  - intros r c Hr Hc Hfoot Hfront.
    assert (peek once r c = C_FIX_FRONT) as Hone.
    { rewrite Hp1, (Hapart r c Hfoot), Hfoot, Hfront by done. reflexivity. }
    assert (peek twice r c = C_FIX_BACK) as Htwice_cell.
    { by rewrite Htwo, (Hapart r c Hfoot), Hfoot by done. }
    split_and!; [done.. |]. intros Heq. rewrite Heq, Htwice_cell in Hone.
    discriminate Hone.
  - intros Hnone. apply (grid_ext N); [done.. |]. intros r c Hr Hc.
    rewrite Htwo, Hp1 by done.
    destruct (dark_module N r c); [done |].
    destruct (fixed_footprint N r c) eqn:Hfoot; [| done].
    unfold fix_color. rewrite decide_False; [done |]. by apply Hnone.
Qed.

Lemma color_fixed_pixels_twice_witness :
  ∃ once twice,
    _color_fixed_pixels finder_grid None = Ok once ∧
    _color_fixed_pixels finder_grid (Some once) = Ok twice ∧
    peek once 0 0 = C_FIX_FRONT ∧ peek twice 0 0 = C_FIX_BACK ∧
    once ≠ twice.
Proof.
  destruct (color_fixed_pixels_twice 21 finder_grid None) as
    (once & twice & Hone & Htwo & _ & _ & Hdiffer & _);
    [lia | apply (bool_decide_unpack _); vm_compute; exact I |].
  exists once, twice. split; [exact Hone |]. split; [exact Htwo |].
  apply (Hdiffer 0 0); [lia | lia | reflexivity | reflexivity].
Defined.

(** ** The mask id a grid carries *)

Lemma mask_id_of_square N g :
  21 ≤ N → square N g →
  mask_id g = Ok (mask_id_as_specified g) ∧ 0 ≤ mask_id_as_specified g ≤ 7.
Proof.
  intros HN Hsq. unfold mask_id, mask_id_as_specified.
  rewrite (row_slice_2_5 N g 8 8) by first [lia | done | solve_index].
  cbn [bind]. unfold bit_of_color.
  generalize (peek g 8 2) (peek g 8 3) (peek g 8 4). intros x y z.
  cbn [fmap list_fmap].
  destruct (decide (x = C_FRONT)), (decide (y = C_FRONT)),
    (decide (z = C_FRONT)); vm_compute; intuition congruence.
Qed.

Lemma reverse_mask_read_id g m :
  mask_id g = Ok m → _reverse_mask g None = _reverse_mask g (Some m).
Proof.
  intros Hid. unfold _reverse_mask. cbn [mask_id_or_default]. by rewrite Hid.
Qed.

Lemma color_mask_read_id g show_data m :
  mask_id g = Ok m →
  _color_mask g show_data None = _color_mask g show_data (Some m).
Proof.
  intros Hid. unfold _color_mask. cbn [mask_id_or_default]. by rewrite Hid.
Qed.

(** The three cells [mask_id] reads lie in the blanked footprint. *)
Lemma mask_id_cells_in_footprint N c :
  21 ≤ N → 2 ≤ c ≤ 4 → cfg_footprint N false 8 c = true.
Proof.
  intros HN Hc. unfold cfg_footprint, format_footprint, finder_format_bands.
  rewrite bool_decide_eq_true_2; [done | lia].
Qed.

Lemma reverse_mask_keeps_footprint N g m mask_fun :
  21 ≤ N → square N g → MASKS !! m = Some mask_fun →
  ∃ g', _reverse_mask g (Some m) = Ok g' ∧ square N g' ∧
    (∀ r c, 0 ≤ r < N → 0 ≤ c < N → cfg_footprint N false r c = true →
       peek g' r c = peek g r c) ∧
    mask_id g' = mask_id g.
Proof.
  intros HN Hsq Hm.
  destruct (reverse_mask_pointwise N g m mask_fun HN Hsq Hm)
    as (g' & Hg' & Hsq' & Hcells).
  assert (∀ r c, 0 ≤ r < N → 0 ≤ c < N → cfg_footprint N false r c = true →
            peek g' r c = peek g r c) as Hkeep.
  { intros r c Hr Hc Hfoot. rewrite Hcells by done. by rewrite Hfoot. }
  exists g'. split_and!; [done.. |].
  rewrite (proj1 (mask_id_of_square N g' HN Hsq')),
    (proj1 (mask_id_of_square N g HN Hsq)).
  unfold mask_id_as_specified.
  by rewrite !Hkeep by first [lia | apply mask_id_cells_in_footprint; lia].
Qed.

(** X5. On every [N]×[N] grid with [N] at least 21, whatever its cells hold,
    the mask id read from the grid is a key of [MASKS]: with no mask id
    given, [_color_mask] and [_reverse_mask] return a grid of the same
    size. *)
Theorem default_mask_id_is_in_table N self_data show_data :
  21 ≤ N → square N self_data →
  (∃ m, mask_id self_data = Ok m ∧ 0 ≤ m ≤ 7) ∧
  (∃ shown, _color_mask self_data show_data None = Ok shown ∧ square N shown) ∧
  (∃ g', _reverse_mask self_data None = Ok g' ∧ square N g').
Proof.
  intros HN Hsq.
  destruct (mask_id_of_square N self_data HN Hsq) as [Hid Hrange].
  destruct (MASKS_defined _ Hrange) as [mask_fun Hfun].
  split; [eauto |]. split.
  - destruct (color_mask_pointwise N self_data show_data _ mask_fun HN Hsq Hfun)
      as (shown & Hshown & Hsq' & _).
    exists shown. split; [| done]. by rewrite (color_mask_read_id _ _ _ Hid).
  - destruct (reverse_mask_pointwise N self_data _ mask_fun HN Hsq Hfun)
      as (g' & Hg' & Hsq' & _).
    exists g'. split; [| done]. by rewrite (reverse_mask_read_id _ _ Hid).
Qed.

Lemma default_mask_id_is_in_table_witness :
  (∃ m, mask_id byte_mode_grid = Ok m ∧ 0 ≤ m ≤ 7) ∧
  (∃ shown, _color_mask byte_mode_grid true None = Ok shown ∧ square 21 shown) ∧
  (∃ g', _reverse_mask byte_mode_grid None = Ok g' ∧ square 21 g').
Proof.
  apply (default_mask_id_is_in_table 21 byte_mode_grid true);
    [lia | apply (bool_decide_unpack _); vm_compute; exact I].
Defined.

(** X6. Mask reversal, with a mask id of the table or with none given,
    leaves every cell of the blanked footprint as it was, whatever the
    cells hold; the mask id read from the result is that of the source. *)
Theorem reverse_mask_keeps_format_cells N self_data mask_id_arg :
  21 ≤ N → square N self_data →
  (∀ m, mask_id_arg = Some m → 0 ≤ m ≤ 7) →
  ∃ g', _reverse_mask self_data mask_id_arg = Ok g' ∧
    (∀ r c, 0 ≤ r < N → 0 ≤ c < N → cfg_footprint N false r c = true →
       peek g' r c = peek self_data r c) ∧
    mask_id g' = mask_id self_data.
Proof.
  intros HN Hsq Harg.
  assert (∃ m, _reverse_mask self_data mask_id_arg
                 = _reverse_mask self_data (Some m) ∧ 0 ≤ m ≤ 7)
    as (m & -> & Hm).
  { destruct mask_id_arg as [m |]; [exists m; split; [done | by apply Harg] |].
    destruct (mask_id_of_square N self_data HN Hsq) as [Hid Hrange].
    eexists. split; [by apply reverse_mask_read_id | done]. }
  destruct (MASKS_defined m Hm) as [mask_fun Hfun].
  destruct (reverse_mask_keeps_footprint N self_data m mask_fun HN Hsq Hfun)
    as (g' & Hg' & _ & Hkeep & Hid).
  by exists g'.
Qed.

Lemma reverse_mask_keeps_format_cells_witness :
  ∃ g', _reverse_mask byte_mode_grid (Some 6) = Ok g' ∧
    (∀ r c, 0 ≤ r < 21 → 0 ≤ c < 21 → cfg_footprint 21 false r c = true →
       peek g' r c = peek byte_mode_grid r c) ∧
    mask_id g' = mask_id byte_mode_grid.
Proof.
  apply (reverse_mask_keeps_format_cells 21 byte_mode_grid (Some 6));
    [lia | apply (bool_decide_unpack _); vm_compute; exact I |].
  intros m Hm. injection Hm as <-. lia.
Defined.

(** X7. With no mask id given, reversing the mask of a data grid twice
    gives the grid back: the second reversal reads the same mask id. *)
Theorem reverse_mask_default_involutive N g :
  21 ≤ N → square N g → binary g →
  ∃ g', _reverse_mask g None = Ok g' ∧ _reverse_mask g' None = Ok g.
Proof.
  intros HN Hsq Hbin.
  destruct (mask_id_of_square N g HN Hsq) as [Hid Hrange].
  destruct (MASKS_defined _ Hrange) as [mask_fun Hfun].
  destruct (reverse_mask_binary N g _ mask_fun HN Hsq Hbin Hfun)
    as (g' & Hg' & Hsq' & Hbin' & Hflip).
  destruct (reverse_mask_binary N g' _ mask_fun HN Hsq' Hbin' Hfun)
    as (g'' & Hg'' & Hsq'' & _ & Hflip').
  destruct (reverse_mask_keeps_footprint N g _ mask_fun HN Hsq Hfun)
    as (h & Hh & _ & _ & Hid').
  assert (h = g') as -> by congruence.
  assert (g'' = g) as ->.
  { apply (grid_ext N); [done.. |]. intros r c Hr Hc.
    rewrite Hflip', Hflip by done.
    destruct (negb (cfg_footprint N false r c) && mask_fun r c); [| done].
    apply flip_color_involutive. by apply (binary_peek N). }
  exists g'. rewrite (reverse_mask_read_id g _ Hid).
  rewrite Hid in Hid'. by rewrite (reverse_mask_read_id g' _ Hid').
Qed.

Lemma reverse_mask_default_involutive_witness :
  ∃ g', _reverse_mask byte_mode_grid None = Ok g' ∧
        _reverse_mask g' None = Ok byte_mode_grid.
Proof.
  apply (reverse_mask_default_involutive 21 byte_mode_grid);
    [lia | apply (bool_decide_unpack _); vm_compute; exact I | apply (bool_decide_unpack _); vm_compute; exact I].
Defined.

(** X4. For a mask id [m] in 0..7 and an [N]×[N] grid of data cells,
    [_color_mask] returns an [N]×[N] grid whose cells are [C_FIX_BACK] on the
    blanked footprint, [C_MASK] where mask function [m] holds, and elsewhere
    the source cell with [show_data] or [C_BACK] without. *)
Theorem color_mask_cells N g show_data m :
  21 ≤ N → square N g → binary g → 0 ≤ m ≤ 7 →
  ∃ (mask_fun : Z → Z → bool) shown,
    MASKS !! m = Some mask_fun ∧
    _color_mask g show_data (Some m) = Ok shown ∧
    square N shown ∧
    ∀ r c, 0 ≤ r < N → 0 ≤ c < N →
      peek shown r c =
        if cfg_footprint N false r c then C_FIX_BACK
        else if mask_fun r c then C_MASK
        else if show_data then peek g r c
        else C_BACK.
Proof.
  intros HN Hsq Hbin Hm.
  destruct (MASKS_defined m Hm) as [mask_fun Hfun].
  destruct (color_mask_pointwise N g show_data m mask_fun HN Hsq Hfun)
    as (shown & Hshown & Hsq' & Hcells).
  exists mask_fun, shown. split_and!; [done.. |]. intros r c Hr Hc.
  rewrite Hcells by done. unfold mask_overlay.
  destruct (cfg_footprint N false r c); [done |].
  rewrite decide_False;
    [| by destruct (binary_peek N g r c Hsq Hbin Hr Hc) as [-> | ->]].
  by destruct (mask_fun r c), show_data.
Qed.

Lemma color_mask_cells_witness :
  ∃ (mask_fun : Z → Z → bool) shown,
    MASKS !! 3 = Some mask_fun ∧
    _color_mask byte_mode_grid true (Some 3) = Ok shown ∧
    square 21 shown ∧
    ∀ r c, 0 ≤ r < 21 → 0 ≤ c < 21 →
      peek shown r c =
        if cfg_footprint 21 false r c then C_FIX_BACK
        else if mask_fun r c then C_MASK
        else if true then peek byte_mode_grid r c
        else C_BACK.
Proof.
  apply (color_mask_cells 21 byte_mode_grid true 3);
    [lia | apply (bool_decide_unpack _); vm_compute; exact I | apply (bool_decide_unpack _); vm_compute; exact I | lia].
Defined.

(** ** Grids that are too small *)

(** A loop that raises in iteration [k] after [k - lo] good iterations. *)
Lemma for_each_range_raise {S} (I : Z → S → Prop) lo k hi body (s : S) e :
  lo ≤ k < hi →
  I lo s →
  (∀ j t, lo ≤ j < k → I j t → ∃ t', body j t = Ok t' ∧ I (j + 1) t') →
  (∀ t, I k t → body k t = Raise e) →
  for_each (range lo hi) body s = Raise e.
Proof.
  intros Hk. remember (Z.to_nat (k - lo)) as n eqn:Hn.
  revert lo s Hk Hn. induction n as [|n IH]; intros lo s Hk Hn Hlo Hstep Hfail.
  - assert (lo = k) as -> by lia. rewrite range_cons by lia. cbn [for_each].
    by rewrite Hfail.
  - rewrite range_cons by lia. cbn [for_each].
    destruct (Hstep lo s) as (t & -> & Ht); [lia | done |]. cbn [bind].
    apply IH; [lia | lia | done | | done].
    intros j u ? ?. apply Hstep; [lia | done].
Qed.

Lemma index_None n i : ¬ (- n ≤ i < n) → index n i = None.
Proof. intros. unfold index. by rewrite !decide_False by lia. Qed.

Lemma getitem_out {A} (l : list A) i :
  index (len l) i = None → getitem l i = Raise IndexError.
Proof. intros Hi. unfold getitem. by rewrite Hi. Qed.

Lemma getitem_in {A} (l : list A) i k :
  index (len l) i = Some k → ∃ x, getitem l i = Ok x.
Proof.
  intros Hi. destruct (getitem_lookup l i k Hi) as (x & Hx & _). eauto.
Qed.

Lemma assign_row_slice_in (d : grid) i k lo hi vs :
  index (len d) i = Some k →
  ∃ d', assign_row_slice d i lo hi vs = Ok d' ∧ len d' = len d.
Proof.
  intros Hi. destruct (getitem_in d i k Hi) as [row Hrow].
  unfold assign_row_slice. rewrite Hrow. cbn [bind].
  unfold setitem. rewrite Hi. eexists. split; [done |].
  unfold len. by rewrite length_insert.
Qed.

Lemma assign_row_slice_out (d : grid) i lo hi vs :
  index (len d) i = None →
  assign_row_slice d i lo hi vs = Raise IndexError.
Proof.
  intros Hi. unfold assign_row_slice. by rewrite (getitem_out d i Hi).
Qed.

Lemma row_slice_in (d : grid) i k lo hi :
  index (len d) i = Some k → ∃ vals, row_slice d i lo hi = Ok vals.
Proof.
  intros Hi. destruct (getitem_in d i k Hi) as [row Hrow].
  unfold row_slice. rewrite Hrow. cbn [bind]. eauto.
Qed.

Lemma row_slice_out (d : grid) i lo hi :
  index (len d) i = None → row_slice d i lo hi = Raise IndexError.
Proof. intros Hi. unfold row_slice. by rewrite (getitem_out d i Hi). Qed.

Lemma color_cfg_pixels_short self_data data hide_rb :
  len (default self_data data) < 9 →
  _color_cfg_pixels self_data data hide_rb = Raise IndexError.
Proof.
  intros Hshort. unfold _color_cfg_pixels.
  set (g := default self_data data) in *.
  set (body := λ (i : Z) (data : grid),
    data <- assign_row_slice data i None (Some 9) (repeat C_FIX_BACK 9);;
    data <- assign_row_slice data i (Some (-8)) None (repeat C_FIX_BACK 8);;
    if decide (i < 8)
    then assign_row_slice data (-8 + i) None (Some 8) (repeat C_FIX_BACK 8)
    else Ok data).
  assert (for_each (range 0 9) body g = Raise IndexError) as ->; [| done].
  assert (0 ≤ len g) as Hnonneg by (unfold len; lia).
  destruct (decide (len g = 8)) as [H8 | Hne].
  - (* eight rows: the ninth iteration finds no row 8 *)
    apply (for_each_range_raise (λ _ d, len d = 8) 0 8); [lia | done | |].
    + intros j d Hj Hd. unfold body.
      destruct (assign_row_slice_in d j j None (Some 9) (repeat C_FIX_BACK 9))
        as (d1 & -> & Hd1); [rewrite Hd; solve_index |]. cbn [bind].
      destruct (assign_row_slice_in d1 j j (Some (-8)) None (repeat C_FIX_BACK 8))
        as (d2 & -> & Hd2); [rewrite Hd1, Hd; solve_index |]. cbn [bind].
      rewrite decide_True by lia.
      destruct (assign_row_slice_in d2 (-8 + j) (8 + (-8 + j)) None (Some 8)
                  (repeat C_FIX_BACK 8))
        as (d3 & -> & Hd3); [rewrite Hd2, Hd1, Hd; solve_index |].
      eexists. split; [done | congruence].
    + intros d Hd. unfold body.
      rewrite assign_row_slice_out; [done |]. rewrite Hd. apply index_None; lia.
  - (* fewer rows: the first iteration fails *)
    apply (for_each_range_raise (λ _ d, len d = len g) 0 0); [lia | done | lia |].
    intros d Hd. unfold body.
    destruct (decide (len g = 0)) as [H0 | Hpos].
    + rewrite assign_row_slice_out; [done |]. rewrite Hd, H0. apply index_None; lia.
    + destruct (assign_row_slice_in d 0 0 None (Some 9) (repeat C_FIX_BACK 9))
        as (d1 & -> & Hd1); [rewrite Hd; solve_index |]. cbn [bind].
      destruct (assign_row_slice_in d1 0 0 (Some (-8)) None (repeat C_FIX_BACK 8))
        as (d2 & -> & Hd2); [rewrite Hd1, Hd; solve_index |]. cbn [bind].
      rewrite decide_True by lia.
      rewrite assign_row_slice_out; [done |].
      rewrite Hd2, Hd1, Hd. apply index_None. lia.
Qed.

Lemma mask_id_short g : len g < 9 → mask_id g = Raise IndexError.
Proof.
  intros Hshort. unfold mask_id.
  rewrite row_slice_out; [done |]. apply index_None. unfold len in *. lia.
Qed.

Lemma color_mask_short self_data show_data mask_id_arg :
  len self_data < 9 →
  _color_mask self_data show_data mask_id_arg = Raise IndexError.
Proof.
  intros Hshort. unfold _color_mask.
  destruct mask_id_arg as [m |]; cbn [mask_id_or_default].
  - cbn [bind]. by rewrite (color_cfg_pixels_short self_data None false).
  - by rewrite mask_id_short.
Qed.

Lemma reverse_mask_short self_data mask_id_arg :
  len self_data < 9 → _reverse_mask self_data mask_id_arg = Raise IndexError.
Proof.
  intros Hshort. unfold _reverse_mask.
  destruct mask_id_arg as [m |]; cbn [mask_id_or_default].
  - cbn [bind]. by rewrite color_mask_short.
  - by rewrite mask_id_short.
Qed.

(** X10. On a grid with fewer than nine rows, whatever its rows hold,
    [_color_cfg_pixels], [_color_mask], [_reverse_mask] and [mask_id] raise
    [IndexError], with any arguments: an unknown mask id is not even looked
    up. *)
Theorem short_grid_raises_index_error self_data :
  len self_data < 9 →
  (∀ hide_rb, _color_cfg_pixels self_data None hide_rb = Raise IndexError) ∧
  (∀ show_data mask_id_arg,
     _color_mask self_data show_data mask_id_arg = Raise IndexError) ∧
  (∀ mask_id_arg, _reverse_mask self_data mask_id_arg = Raise IndexError) ∧
  mask_id self_data = Raise IndexError.
Proof.
  intros Hshort. split_and!.
  - intros hide_rb. by apply color_cfg_pixels_short.
  - intros. by apply color_mask_short.
  - intros. by apply reverse_mask_short.
  - by apply mask_id_short.
Qed.

Lemma short_grid_raises_index_error_witness :
  (∀ hide_rb, _color_cfg_pixels (blank 5) None hide_rb = Raise IndexError) ∧
  (∀ show_data mask_id_arg,
     _color_mask (blank 5) show_data mask_id_arg = Raise IndexError) ∧
  (∀ mask_id_arg, _reverse_mask (blank 5) mask_id_arg = Raise IndexError) ∧
  mask_id (blank 5) = Raise IndexError.
Proof. apply (short_grid_raises_index_error (blank 5)). vm_compute. reflexivity. Defined.

(** X12. When the encoder delivers a matrix with fewer than nine rows,
    [__init__] raises [IndexError]; when the encoder raises, [__init__]
    raises the same exception. *)
Theorem init_propagates_errors
    (qrcode_get_matrix : string → Z → result (list (list bool)))
    (qr_text : string) (error_correction : Z) :
  (∀ e, qrcode_get_matrix qr_text error_correction = Raise e →
     __init__ qrcode_get_matrix qr_text error_correction = Raise e) ∧
  (∀ qr_data, qrcode_get_matrix qr_text error_correction = Ok qr_data →
     len qr_data < 9 →
     __init__ qrcode_get_matrix qr_text error_correction = Raise IndexError).
Proof.
  unfold __init__. split.
  - by intros e ->.
  - intros qr_data -> Hshort. cbn [bind].
    rewrite reverse_mask_short; [done |].
    unfold colors_of_matrix, len in *. by rewrite length_fmap.
Qed.

Lemma init_propagates_errors_witness :
  __init__ failing_encoder "hey there" 1 = Raise EncoderError ∧
  __init__ (fixed_encoder short_matrix) "hey there" 1 = Raise IndexError.
Proof.
  split.
  - apply (proj1 (init_propagates_errors failing_encoder "hey there" 1)).
    reflexivity.
  - apply (proj2 (init_propagates_errors (fixed_encoder short_matrix)
                    "hey there" 1) short_matrix);
      [reflexivity | vm_compute; reflexivity].
Defined.

(** X11. On a grid with fewer than eight rows, whatever its rows hold,
    [_color_fixed_pixels] raises [IndexError]. *)
Theorem color_fixed_pixels_short_grid self_data data :
  len (default self_data data) < 8 →
  _color_fixed_pixels self_data data = Raise IndexError.
Proof.
  intros Hshort. unfold _color_fixed_pixels.
  set (g := default self_data data) in *.
  set (body := λ (i : Z) (data : grid),
    vals <- row_slice data i None (Some 8);;
    data <- assign_row_slice data i None (Some 8) (fix_color <$> vals);;
    vals <- row_slice data i (Some (-8)) None;;
    data <- assign_row_slice data i (Some (-8)) None (fix_color <$> vals);;
    vals <- row_slice data (-8 + i) None (Some 8);;
    assign_row_slice data (-8 + i) None (Some 8) (fix_color <$> vals)).
  assert (for_each (range 0 8) body g = Raise IndexError) as ->; [| done].
  assert (0 ≤ len g) as Hnonneg by (unfold len; lia).
  apply (for_each_range_raise (λ _ d, len d = len g) 0 0); [lia | done | lia |].
  intros d Hd. unfold body.
  destruct (decide (len g = 0)) as [H0 | Hpos].
  - rewrite row_slice_out; [done |]. rewrite Hd, H0. apply index_None; lia.
  - destruct (row_slice_in d 0 0 None (Some 8)) as [v1 ->];
      [rewrite Hd; solve_index |]. cbn [bind].
    destruct (assign_row_slice_in d 0 0 None (Some 8) (fix_color <$> v1))
      as (d1 & -> & Hd1); [rewrite Hd; solve_index |]. cbn [bind].
    destruct (row_slice_in d1 0 0 (Some (-8)) None) as [v2 ->];
      [rewrite Hd1, Hd; solve_index |]. cbn [bind].
    destruct (assign_row_slice_in d1 0 0 (Some (-8)) None (fix_color <$> v2))
      as (d2 & -> & Hd2); [rewrite Hd1, Hd; solve_index |]. cbn [bind].
    rewrite row_slice_out; [done |].
    rewrite Hd2, Hd1, Hd. apply index_None; lia.
Qed.

Lemma color_fixed_pixels_short_grid_witness :
  _color_fixed_pixels (blank 5) None = Raise IndexError.
Proof.
  apply (color_fixed_pixels_short_grid (blank 5) None). vm_compute. reflexivity.
Defined.

(** ** Binary numerals *)

Lemma bin_digits_of_colors acc vals :
  bin_digits acc (join (digit_of_color <$> vals)) =
    Some (foldl (λ acc b, 2 * acc + b) acc (bit_of_color <$> vals)).
Proof.
  revert acc. induction vals as [|v vals IH]; intros acc; [done |].
  assert (join (digit_of_color <$> v :: vals) =
          digit_of_color v +:+ join (digit_of_color <$> vals)) as ->.
  { unfold join. cbn [fmap list_fmap String.concat].
    destruct (digit_of_color <$> vals); [| done].
    cbn. unfold digit_of_color. by case_decide. }
  rewrite fmap_cons. cbn [foldl].
  unfold digit_of_color at 1, bit_of_color at 1.
  case_decide; cbn [String.append bin_digits]; apply IH.
Qed.

Lemma int2_of_colors vals :
  vals ≠ [] →
  int2 (join (digit_of_color <$> vals)) = Ok (big_endian (bit_of_color <$> vals)).
Proof.
  intros Hne. destruct vals as [|v vals]; [done |].
  pose proof (bin_digits_of_colors 0 (v :: vals)) as Hdigits.
  unfold big_endian.
  assert (∃ c s, join (digit_of_color <$> v :: vals) = String c s ∧
                 (c = "0"%char ∨ c = "1"%char)) as (c & s & Hs & Hc).
  { unfold join. cbn [fmap list_fmap String.concat].
    destruct (digit_of_color <$> vals);
      unfold digit_of_color; case_decide; cbn; eauto. }
  rewrite Hs in *. unfold int2, bin_nonempty.
  destruct Hc as [-> | ->]; by rewrite Hdigits.
Qed.

Lemma big_endian_bound vals acc :
  0 ≤ acc →
  acc * 2 ^ len vals ≤ foldl (λ acc b, 2 * acc + b) acc (bit_of_color <$> vals)
    < (acc + 1) * 2 ^ len vals.
Proof.
  revert acc. induction vals as [|v vals IH]; intros acc Hacc.
  - cbn. unfold len. cbn. lia.
  - cbn [fmap list_fmap foldl].
    assert (len (v :: vals) = len vals + 1) as -> by (unfold len; cbn; lia).
    rewrite Z.pow_add_r by (unfold len; lia).
    assert (0 ≤ bit_of_color v ≤ 1) as Hbit
      by (unfold bit_of_color; case_decide; lia).
    specialize (IH (2 * acc + bit_of_color v) ltac:(lia)).
    assert (0 < 2 ^ len vals) by (apply Z.pow_pos_nonneg; unfold len; lia).
    nia.
Qed.

(** X9. [mask_id()] on any grid, well-formed or not: without a row 8 it
    raises [IndexError]; when row 8 has at most two cells the slice is empty
    and [int] raises [ValueError]; otherwise it returns the binary numeral
    of the one to three cells the slice [2:5] holds, a number in 0..7. *)
Theorem mask_id_on_any_grid (g : grid) :
  mask_id g =
    match g !! 8%nat with
    | None => Raise IndexError
    | Some row =>
        if decide (len row ≤ 2) then Raise ValueError
        else Ok (big_endian (bit_of_color <$> getslice row (Some 2) (Some 5)))
    end
  ∧ ∀ n, mask_id g = Ok n → 0 ≤ n ≤ 7.
Proof.
  assert (mask_id g =
    match g !! 8%nat with
    | None => Raise IndexError
    | Some row =>
        if decide (len row ≤ 2) then Raise ValueError
        else Ok (big_endian (bit_of_color <$> getslice row (Some 2) (Some 5)))
    end) as Heval.
  { unfold mask_id, row_slice. destruct (g !! 8%nat) as [row |] eqn:Hrow.
    - pose proof (lookup_lt_Some _ _ _ Hrow) as Hlen.
      unfold getitem. rewrite index_front by (unfold len; lia).
      change (Z.to_nat 8) with 8%nat. rewrite Hrow. cbn [bind].
      case_decide as Hshort.
      + assert (getslice row (Some 2) (Some 5) = []) as ->; [| done].
        unfold getslice, bound. rewrite !decide_False by lia.
        replace (Z.to_nat (Z.min 5 (len row) - Z.min 2 (len row))) with 0%nat
          by lia.
        done.
      + apply (int2_of_colors (getslice row (Some 2) (Some 5))).
        intros Hnil.
        pose proof (getslice_len (len row) row eq_refl (Some 2) (Some 5) 2
                      (Z.min 5 (len row))) as Hslice.
        rewrite Hnil in Hslice. unfold bound in Hslice.
        rewrite !decide_False in Hslice by lia. unfold len in *.
        specialize (Hslice ltac:(lia) ltac:(lia) ltac:(lia)).
        cbn [length] in Hslice. lia.
    - apply lookup_ge_None in Hrow. rewrite getitem_out; [done |].
      apply index_None. unfold len. lia. }
  split; [done |]. intros n Hn. rewrite Heval in Hn.
  destruct (g !! 8%nat) as [row |]; [| done].
  case_decide as Hshort; [done |]. injection Hn as <-.
  pose proof (big_endian_bound (getslice row (Some 2) (Some 5)) 0 ltac:(lia))
    as Hbound.
  rewrite (getslice_len (len row) row eq_refl (Some 2) (Some 5) 2
             (Z.min 5 (len row))) in Hbound;
    [| unfold bound; rewrite decide_False by lia; lia.. | lia].
  unfold big_endian.
  assert (2 ^ (Z.min 5 (len row) - 2) ≤ 2 ^ 3)
    by (apply Z.pow_le_mono_r; lia).
  lia.
Qed.

Lemma mask_id_on_any_grid_witness :
  mask_id [[1]] = Raise IndexError ∧
  mask_id (repeat [1; 1] 9) = Raise ValueError ∧
  mask_id (repeat [1; 1; 1; 1] 9) = Ok 3 ∧
  0 ≤ 3 ≤ 7.
Proof.
  split; [exact (proj1 (mask_id_on_any_grid [[1]])) |].
  split; [exact (proj1 (mask_id_on_any_grid (repeat [1; 1] 9))) |].
  split; [exact (proj1 (mask_id_on_any_grid (repeat [1; 1; 1; 1] 9))) |].
  apply (proj2 (mask_id_on_any_grid (repeat [1; 1; 1; 1] 9))).
  vm_compute. reflexivity.
Defined.

(** ** The length and mode cells *)

Lemma field_cells_blanked N h :
  21 ≤ N → square N h →
  (∀ r c, N - 6 ≤ r ≤ N - 1 → N - 2 ≤ c ≤ N - 1 → peek h r c = C_FIX_BACK) →
  msg_len h = Raise ValueError ∧ codification_mode h = Raise ValueError.
Proof.
  intros HN Hsq Hblank. split.
  - unfold msg_len, msg_len_bin.
    change (range 0 4) with [0; 1; 2; 3]. cbn [for_each].
    rewrite (row_slice_trailing_pair N h (-6 + 0) (N - 6))
      by first [lia | done | solve_index_eq]. cbn [bind].
    rewrite (row_slice_trailing_pair N h (-6 + 1) (N - 5))
      by first [lia | done | solve_index_eq]. cbn [bind].
    rewrite (row_slice_trailing_pair N h (-6 + 2) (N - 4))
      by first [lia | done | solve_index_eq]. cbn [bind].
    rewrite (row_slice_trailing_pair N h (-6 + 3) (N - 3))
      by first [lia | done | solve_index_eq]. cbn [bind].
    by rewrite !Hblank by lia.
  - unfold codification_mode, codification_mode_bin.
    rewrite (row_slice_trailing_pair N h (-2) (N - 2))
      by first [lia | done | solve_index_eq]. cbn [bind].
    rewrite (row_slice_trailing_pair N h (-1) (N - 1))
      by first [lia | done | solve_index_eq]. cbn [bind].
    by rewrite !Hblank by lia.
Qed.

(** X8. With [hide_rb], [_color_cfg_pixels] blanks, beyond what it blanks
    without, exactly the last two columns of the bottom six rows, which
    without [hide_rb] it leaves as they are; these are the cells [msg_len]
    and [codification_mode] read, so both raise [ValueError] on the grid
    blanked with [hide_rb]. *)
Theorem hide_rb_blanks_length_and_mode N self_data data :
  21 ≤ N → square N (default self_data data) →
  ∃ shown hidden,
    _color_cfg_pixels self_data data false = Ok shown ∧
    _color_cfg_pixels self_data data true = Ok hidden ∧
    (∀ r c, 0 ≤ r < N → 0 ≤ c < N →
       peek hidden r c =
         if bool_decide (length_mode_area N r c) then C_FIX_BACK
         else peek shown r c) ∧
    (∀ r c, 0 ≤ r < N → 0 ≤ c < N → length_mode_area N r c →
       peek shown r c = peek (default self_data data) r c) ∧
    msg_len hidden = Raise ValueError ∧
    codification_mode hidden = Raise ValueError.
Proof.
  intros HN Hsq.
  destruct (color_cfg_pixels_pointwise N self_data data false HN Hsq)
    as (shown & Hshown & Hsq1 & Hcells1).
  destruct (color_cfg_pixels_pointwise N self_data data true HN Hsq)
    as (hidden & Hhidden & Hsq2 & Hcells2).
  assert (∀ r c, 0 ≤ r < N → 0 ≤ c < N →
       peek hidden r c =
         if bool_decide (length_mode_area N r c) then C_FIX_BACK
         else peek shown r c) as Hrel.
  { intros r c Hr Hc. rewrite Hcells1, Hcells2 by done.
    unfold cfg_footprint. cbn [andb].
    by destruct (format_footprint N r c), (bool_decide (length_mode_area N r c)). }
  exists shown, hidden. do 3 (split; [done |]). split.
  - intros r c Hr Hc Harea. rewrite Hcells1 by done.
    unfold cfg_footprint, format_footprint, finder_format_bands, timing_strips,
      dark_module_column, length_mode_area in *.
    cbn [andb]. rewrite orb_false_r. rewrite bool_decide_eq_false_2; [done | lia].
  - apply (field_cells_blanked N); [done.. |]. intros r c Hr Hc.
    rewrite Hrel by lia. rewrite bool_decide_eq_true_2; [done |].
    unfold length_mode_area. lia.
Qed.

Lemma hide_rb_blanks_length_and_mode_witness :
  ∃ shown hidden,
    _color_cfg_pixels byte_mode_grid None false = Ok shown ∧
    _color_cfg_pixels byte_mode_grid None true = Ok hidden ∧
    (∀ r c, 0 ≤ r < 21 → 0 ≤ c < 21 →
       peek hidden r c =
         if bool_decide (length_mode_area 21 r c) then C_FIX_BACK
         else peek shown r c) ∧
    (∀ r c, 0 ≤ r < 21 → 0 ≤ c < 21 → length_mode_area 21 r c →
       peek shown r c = peek byte_mode_grid r c) ∧
    msg_len hidden = Raise ValueError ∧
    codification_mode hidden = Raise ValueError.
Proof.
  apply (hide_rb_blanks_length_and_mode 21 byte_mode_grid None);
    [lia | apply (bool_decide_unpack _); vm_compute; exact I].
Defined.

(** ** The constructor on a well-formed matrix *)

Lemma colors_of_matrix_data N qr_data :
  len qr_data = N → Forall (λ row, len row = N) qr_data →
  square N (colors_of_matrix qr_data) ∧ binary (colors_of_matrix qr_data).
Proof.
  intros Hlen Hrows. unfold colors_of_matrix. split; [split |].
  - unfold len in *. by rewrite length_fmap.
  - apply Forall_fmap. eapply Forall_impl; [exact Hrows |].
    intros row Hrow. unfold len in *. cbn. by rewrite length_fmap.
  - apply Forall_fmap, Forall_true. intros row. cbn.
    apply Forall_fmap, Forall_true. intros []; cbn; auto.
Qed.

(** X13. When the encoder delivers a square matrix of side at least 21,
    [__init__] raises nothing but its [AssertionError]; when it returns, the
    instance holds the colours of the matrix, the text, and a demasked grid
    of the same size made of data cells, which carries the same mask id as
    the raw grid and from which [msg_len()] reads a number in 0..255. *)
Theorem init_on_square_matrix
    (qrcode_get_matrix : string → Z → result (list (list bool)))
    (qr_text : string) (error_correction : Z) (qr_data : list (list bool)) N :
  qrcode_get_matrix qr_text error_correction = Ok qr_data →
  21 ≤ N → len qr_data = N → Forall (λ row, len row = N) qr_data →
  (∃ self,
     __init__ qrcode_get_matrix qr_text error_correction = Ok self ∧
     data self = colors_of_matrix qr_data ∧
     text self = qr_text ∧
     square N (data_rev self) ∧ binary (data_rev self) ∧
     mask_id (data_rev self) = mask_id (data self) ∧
     ∃ n, msg_len (data_rev self) = Ok n ∧ 0 ≤ n ≤ 255)
  ∨ __init__ qrcode_get_matrix qr_text error_correction = Raise AssertionError.
Proof.
  intros Henc HN Hlen Hrows.
  destruct (colors_of_matrix_data N qr_data Hlen Hrows) as [Hsq Hbin].
  destruct (mask_id_of_square N _ HN Hsq) as [Hid Hrange].
  destruct (MASKS_defined _ Hrange) as [mask_fun Hfun].
  destruct (reverse_mask_binary N _ _ mask_fun HN Hsq Hbin Hfun)
    as (rev & Hrev & Hsq' & Hbin' & _).
  destruct (reverse_mask_keeps_footprint N _ _ mask_fun HN Hsq Hfun)
    as (rev' & Hrev' & _ & _ & Hid').
  assert (rev' = rev) as -> by congruence.
  destruct (codification_mode_bin_eval N rev HN Hsq' Hbin')
    as (cod_mode & Hcod & _ & Hmode & _).
  destruct (msg_len_bin_eval N rev HN Hsq' Hbin')
    as (len_bin & Hlen_bin & _ & Hmsg & Hmsg_range).
  unfold __init__. rewrite Henc. cbn [bind].
  rewrite (reverse_mask_read_id _ _ Hid), Hrev. cbn [bind data_rev].
  unfold codification_mode. rewrite Hcod. cbn [bind]. rewrite Hmode. cbn [bind].
  case_decide as Hfour; [left | by right].
  eexists. split; [done |]. cbn [data data_rev text].
  split_and!; [done.. |].
  exists (msg_len_as_specified N rev). split; [| lia].
  unfold msg_len. by rewrite Hlen_bin.
Qed.

Lemma init_on_square_matrix_witness :
  (∃ self,
     __init__ (fixed_encoder byte_mode_matrix) "hey there" 1 = Ok self ∧
     data self = colors_of_matrix byte_mode_matrix ∧
     text self = "hey there" ∧
     square 21 (data_rev self) ∧ binary (data_rev self) ∧
     mask_id (data_rev self) = mask_id (data self) ∧
     ∃ n, msg_len (data_rev self) = Ok n ∧ 0 ≤ n ≤ 255)
  ∨ __init__ (fixed_encoder byte_mode_matrix) "hey there" 1
    = Raise AssertionError.
Proof.
  apply (init_on_square_matrix (fixed_encoder byte_mode_matrix) "hey there" 1
           byte_mode_matrix 21);
    [reflexivity | lia | reflexivity | apply (bool_decide_unpack _); vm_compute; exact I].
Defined.

(** ** What the plotting methods draw *)

Lemma palette_len k :
  0 ≤ k ≤ 7 → len (getslice PLT_COLORS None (Some k)) = k.
Proof.
  intros Hk.
  assert (k = 0 ∨ k = 1 ∨ k = 2 ∨ k = 3 ∨ k = 4 ∨ k = 5 ∨ k = 6 ∨ k = 7)
    as Hcases by lia.
  destruct_or!; subst k; reflexivity.
Qed.

(** X14. For an instance whose raw and demasked grids are [N]×[N] grids of
    data cells, every plotting method hands matplotlib an [N]×[N] matrix
    each of whose codes is below the number of colours of its colour map:
    two for [plot], four for [plot_cfg_info], three for [plot_fixed] and
    [plot_reversed], five for [plot_mask] (with a mask id of the table or
    none). *)
Theorem plots_codes_have_colors N self show_data mask_id_arg :
  21 ≤ N →
  square N (data self) → binary (data self) →
  square N (data_rev self) → binary (data_rev self) →
  (∀ m, mask_id_arg = Some m → 0 ≤ m ≤ 7) →
  codes_have_colors N (plot self) ∧
  codes_have_colors N (plot_cfg_info self) ∧
  codes_have_colors N (plot_fixed self) ∧
  codes_have_colors N (plot_mask self show_data mask_id_arg) ∧
  codes_have_colors N (plot_reversed self).
Proof.
  intros HN Hsq Hbin Hsq' Hbin' Harg. unfold codes_have_colors.
  assert (∀ r c, 0 ≤ r < N → 0 ≤ c < N → 0 ≤ peek (data self) r c < 2) as Hraw.
  { intros r c Hr Hc.
    destruct (binary_peek N _ r c Hsq Hbin Hr Hc) as [-> | ->];
      unfold C_BACK, C_FRONT; lia. }
  assert (∀ r c, 0 ≤ r < N → 0 ≤ c < N → 0 ≤ peek (data_rev self) r c < 2)
    as Hrev.
  { intros r c Hr Hc.
    destruct (binary_peek N _ r c Hsq' Hbin' Hr Hc) as [-> | ->];
      unfold C_BACK, C_FRONT; lia. }
  split_and!.
  - (* plot *)
    unfold plot. eexists. split; [done |]. cbn [matrix colors].
    rewrite palette_len by lia. by split.
  - (* plot_cfg_info *)
    unfold plot_cfg_info.
    destruct (color_fixed_pixels_pointwise N (data self) None HN Hsq)
      as (shown & -> & Hsq1 & Hcells).
    cbn [bind]. eexists. split; [done |]. cbn [matrix colors].
    rewrite palette_len by lia. split; [done |]. intros r c Hr Hc.
    rewrite Hcells by done. cbn [default from_option id].
    specialize (Hraw r c Hr Hc). unfold fix_color, C_FIX_FRONT, C_FIX_BACK.
    destruct (dark_module N r c), (fixed_footprint N r c); try case_decide; lia.
  - (* plot_fixed *)
    unfold plot_fixed.
    destruct (color_cfg_pixels_pointwise N (data self) None false HN Hsq)
      as (shown & -> & Hsq1 & Hcells).
    cbn [bind]. eexists. split; [done |]. cbn [matrix colors].
    rewrite palette_len by lia. split; [done |]. intros r c Hr Hc.
    rewrite Hcells by done. cbn [default from_option id].
    specialize (Hraw r c Hr Hc). unfold C_FIX_BACK.
    destruct (cfg_footprint N false r c); lia.
  - (* plot_mask *)
    unfold plot_mask.
    assert (∃ m, _color_mask (data self) show_data mask_id_arg
                   = _color_mask (data self) show_data (Some m) ∧ 0 ≤ m ≤ 7)
      as (m & -> & Hm).
    { destruct mask_id_arg as [m |]; [exists m; split; [done | by apply Harg] |].
      destruct (mask_id_of_square N _ HN Hsq) as [Hid Hrange].
      eexists. split; [by apply color_mask_read_id | done]. }
    destruct (MASKS_defined m Hm) as [mask_fun Hfun].
    destruct (color_mask_pointwise N (data self) show_data m mask_fun HN Hsq Hfun)
      as (shown & -> & Hsq1 & Hcells).
    cbn [bind]. eexists. split; [done |]. cbn [matrix colors].
    rewrite palette_len by lia. split; [done |]. intros r c Hr Hc.
    rewrite Hcells by done. specialize (Hraw r c Hr Hc).
    unfold mask_overlay, C_FIX_BACK, C_MASK, C_BACK.
    destruct (cfg_footprint N false r c), (mask_fun r c), show_data;
      cbn [negb]; repeat case_decide; lia.
  - (* plot_reversed *)
    unfold plot_reversed.
    destruct (color_cfg_pixels_pointwise N (data self) (Some (data_rev self))
                false HN Hsq') as (shown & -> & Hsq1 & Hcells).
    cbn [bind]. eexists. split; [done |]. cbn [matrix colors].
    rewrite palette_len by lia. split; [done |]. intros r c Hr Hc.
    rewrite Hcells by done. cbn [default from_option id].
    specialize (Hrev r c Hr Hc). unfold C_FIX_BACK.
    destruct (cfg_footprint N false r c); lia.
Qed.

Lemma plots_codes_have_colors_witness :
  codes_have_colors 21 (plot byte_mode_instance) ∧
  codes_have_colors 21 (plot_cfg_info byte_mode_instance) ∧
  codes_have_colors 21 (plot_fixed byte_mode_instance) ∧
  codes_have_colors 21 (plot_mask byte_mode_instance true None) ∧
  codes_have_colors 21 (plot_reversed byte_mode_instance).
Proof.
  apply (plots_codes_have_colors 21 byte_mode_instance true None);
    [lia | apply (bool_decide_unpack _); vm_compute; exact I | apply (bool_decide_unpack _); vm_compute; exact I | apply (bool_decide_unpack _); vm_compute; exact I | apply (bool_decide_unpack _); vm_compute; exact I |].
  intros m Hm. discriminate Hm.
Defined.
